(** * ax.core.observation: observation features, observation data and the
    conversion of a measurement table into observations

    A shallow embedding of [ax/core/observation.py].  Python objects that the
    module mutates or shares (parameter dicts, [ObservationFeatures],
    [ObservationData]) live in an explicit store and are named by references;
    every operation is a computation in a state-and-exception monad over that
    store, so aliasing and copying are visible in the statements.

    What stays outside the module is a parameter of the development:
    [json.loads] ([JsonDecoder]), the order in which pandas hands out groups
    ([GroupOrder]), and the renderings and the [hash] that [__hash__] calls
    ([Builtins]).  Parameter values are the scalars of [TParameterization];
    the contents of arrays and of the list of metric names are values; the
    cells of the table are values too, so a table has no missing cell. *)

From Stdlib Require Import Floats.PrimFloat.
From Stdlib Require Import ZArith DecimalString Strings.Ascii.
From stdpp Require Import base tactics option list strings gmap sorting.

Open Scope Z_scope.
Open Scope string_scope.
Open Scope list_scope.
Open Scope stdpp_scope.

(** ** Parameter values

    [TParameterization] maps parameter names to scalars.  The two numpy
    scalar types that [__hash__] tests for keep their own tags. *)

Inductive value : Type :=
  | VNone
  | VBool (b : bool)
  | VInt (z : Z)
  | VFloat (x : float)
  | VStr (s : string)
  | VInt64 (z : Z)        (* np.int64 *)
  | VFloat32 (x : float). (* np.float32 *)

(** ** Python dicts

    A dict is kept as its items in insertion order; keys are unique in every
    dict a Python program can build ([dict_wf]). *)

Abbreviation dict := (list (string * value)) (only parsing).

Definition dict_wf (d : dict) : Prop := NoDup d.*1.

Fixpoint dict_get (d : dict) (k : string) : option value :=
  match d with
  | [] => None
  | (k', v) :: d' => if decide (k' = k) then Some v else dict_get d' k
  end.

(** [d[k] = v]: an existing key keeps its position, a new key goes last. *)
Fixpoint dict_setitem (d : dict) (k : string) (v : value) : dict :=
  match d with
  | [] => [(k, v)]
  | (k', v') :: d' =>
      if decide (k' = k) then (k, v) :: d' else (k', v') :: dict_setitem d' k v
  end.

(** [d.update(other)] *)
Definition dict_update (d other : dict) : dict :=
  foldl (λ acc kv, dict_setitem acc kv.1 kv.2) d other.

(** [bool(d)] *)
Definition dict_truthy (d : dict) : bool :=
  match d with [] => false | _ => true end.

(** ** Objects and the store *)

Abbreviation loc := nat (only parsing).

Record ObservationFeatures : Type := {
  parameters : loc;
  trial_index : option Z;
  start_time : option Z;
  end_time : option Z;
  random_split : option Z
}.

(** A numpy array: its shape and its entries in row-major order. *)
Record ndarray : Type := { shape : list nat; flat : list float }.

Record ObservationData : Type := {
  metric_names : list string;
  means : ndarray;
  covariance : ndarray
}.

(** The module never assigns to an attribute of an [Observation], so an
    Observation is given by the two references it holds and its arm name. *)
Record Observation : Type := {
  features : loc;
  data : loc;
  arm_name : option string
}.

Inductive object : Type :=
  | ODict (d : dict)
  | OFeatures (f : ObservationFeatures)
  | OData (d : ObservationData).

(** The store.  Allocation appends: the next fresh reference is the length of
    the store. *)
Abbreviation heap := (list object) (only parsing).

Inductive exn : Type :=
  | KeyError (key : string)
  | TypeError (msg : string)
  | ValueError (msg : string)
  | AttributeError (msg : string)
  | JSONDecodeError.

(** ** The monad: a store that survives a raised exception

    A load of a reference that does not hold an object of the expected class
    raises [AttributeError], as the attribute access on a wrong object does
    in Python; a reference is never dangling there. *)

Definition M (A : Type) : Type := heap → heap * (exn + A).

Global Instance M_ret : MRet M := λ A x h, (h, inr x).

Global Instance M_bind : MBind M := λ A B f m h,
  match m h with
  | (h', inl e) => (h', inl e)
  | (h', inr a) => f a h'
  end.

Definition raise {A} (e : exn) : M A := λ h, (h, inl e).

Definition alloc (o : object) : M loc := λ h, (h ++ [o], inr (length h)).

Definition store (l : loc) (o : object) : M unit := λ h, (<[l := o]> h, inr tt).

Definition load_dict (l : loc) : M dict := λ h,
  match h !! l with
  | Some (ODict d) => (h, inr d)
  | _ => (h, inl (AttributeError "not a dict"))
  end.

Definition load_features (l : loc) : M ObservationFeatures := λ h,
  match h !! l with
  | Some (OFeatures f) => (h, inr f)
  | _ => (h, inl (AttributeError "not an ObservationFeatures"))
  end.

Definition load_data (l : loc) : M ObservationData := λ h,
  match h !! l with
  | Some (OData d) => (h, inr d)
  | _ => (h, inl (AttributeError "not an ObservationData"))
  end.

(** The argument of [dict.update]: an object that is no mapping is refused
    with [TypeError]. *)
Definition load_mapping (l : loc) : M dict := λ h,
  match h !! l with
  | Some (ODict d) => (h, inr d)
  | _ => (h, inl (TypeError "object is not iterable"))
  end.

(** [d[k] = v] on the dict object at [l] *)
Definition setitem (l : loc) (k : string) (v : value) : M unit :=
  d ← load_dict l; store l (ODict (dict_setitem d k v)).

(** [d.copy()] *)
Definition dict_copy (l : loc) : M loc :=
  d ← load_dict l; alloc (ODict d).

(** ** Arms and the experiment's registry *)

(** Modelled from the spec: class [Arm] of [ax/core/arm.py] and the
    [arms_by_name] registry of [ax/core/experiment.py], which are imported by
    the module and not part of the sources.  An arm holds its parameter
    mapping, a dict object.  The registry maps an arm name to the arm
    ("lookup by arm name → parameter mapping"). *)
Record Arm : Type := { arm_parameters : loc }.

(** Modelled from the spec: the read [arm.parameters], a property of the
    class [Arm], which is not part of the sources.  The spec has [from_arm]
    produce "a fresh copy of the arm's parameter mapping", and [from_arm]
    itself copies nothing, so the copy is the read's: every read yields a
    dict of its own with the entries of the arm's mapping.
    [observations_from_data] copies what it reads at once and keeps only
    its own copy; there the read and the copy are one [dict_copy]. *)
Definition Arm_parameters (arm : Arm) : M loc := dict_copy (arm_parameters arm).

Record Experiment : Type := { arms_by_name : gmap string Arm }.

(** ** ObservationFeatures *)

(** [ObservationFeatures.__init__] *)
Definition Features_init (params : loc) (ti st et rs : option Z) : M loc :=
  alloc (OFeatures {| parameters := params; trial_index := ti;
                      start_time := st; end_time := et; random_split := rs |}).

(** [ObservationFeatures] called with the keyword arguments [obs_kwargs]:
    [parameters] has no default, so a call whose keyword arguments lack it
    is rejected by Python before the body of [__init__] runs. *)
Definition Features_init_kwargs (kw_parameters : option loc)
    (ti st et rs : option Z) : M loc :=
  match kw_parameters with
  | Some p => Features_init p ti st et rs
  | None =>
      raise (TypeError
        "__init__() missing 1 required positional argument: 'parameters'")
  end.

Definition set_parameters (p : loc) (f : ObservationFeatures) :=
  {| parameters := p; trial_index := trial_index f; start_time := start_time f;
     end_time := end_time f; random_split := random_split f |}.
Definition set_trial_index (v : option Z) (f : ObservationFeatures) :=
  {| parameters := parameters f; trial_index := v; start_time := start_time f;
     end_time := end_time f; random_split := random_split f |}.
Definition set_start_time (v : option Z) (f : ObservationFeatures) :=
  {| parameters := parameters f; trial_index := trial_index f; start_time := v;
     end_time := end_time f; random_split := random_split f |}.
Definition set_end_time (v : option Z) (f : ObservationFeatures) :=
  {| parameters := parameters f; trial_index := trial_index f;
     start_time := start_time f; end_time := v; random_split := random_split f |}.
Definition set_random_split (v : option Z) (f : ObservationFeatures) :=
  {| parameters := parameters f; trial_index := trial_index f;
     start_time := start_time f; end_time := end_time f; random_split := v |}.

(** [self.<attr> = ...] *)
Definition setattr (self : loc) (upd : ObservationFeatures → ObservationFeatures)
  : M unit :=
  f ← load_features self; store self (OFeatures (upd f)).

(** [if new_features.<attr> is not None: self.<attr> = new_features.<attr>] *)
Definition copy_if_set (self new_features : loc)
    (get : ObservationFeatures → option Z)
    (set : option Z → ObservationFeatures → ObservationFeatures) : M unit :=
  nf ← load_features new_features;
  match get nf with
  | Some _ => setattr self (set (get nf))
  | None => mret tt
  end.

(** [ObservationFeatures.from_arm] *)
Definition from_arm (arm : Arm) (ti st et rs : option Z) : M loc :=
  p ← Arm_parameters arm;
  Features_init p ti st et rs.

(** [ObservationFeatures.update_features].  The first statement reads
    [self.parameters] and its [update], then [new_features.parameters], and
    only then merges; an argument that is none of the module's objects is
    outside the model. *)
Definition update_features (self new_features : loc) : M loc :=
  sf ← load_features self;
  d_self ← load_dict (parameters sf);
  nf ← load_features new_features;
  d_new ← load_mapping (parameters nf);
  store (parameters sf) (ODict (dict_update d_self d_new));;
  copy_if_set self new_features trial_index set_trial_index;;
  copy_if_set self new_features start_time set_start_time;;
  copy_if_set self new_features end_time set_end_time;;
  copy_if_set self new_features random_split set_random_split;;
  mret self.

(** *** Hashing *)

(** What [__hash__] takes from outside the module: the two renderings that
    [json.dumps] delegates to ([float.__repr__] and the escaping of a string)
    and the builtin [hash] of the five-element tuple. *)
Class Builtins : Type := {
  float_repr : float → string;
  encode_basestring : string → string;
  py_hash : string * option Z * option Z * option Z * option Z → Z
}.

Definition int_repr (z : Z) : string := NilZero.string_of_int (Z.to_int z).

(** The double quote *)
Definition dq : ascii := "034"%char.

(** A sample of the three builtins, for running the definitions on
    parameters that are integers, booleans or strings without a character
    that [json] escapes. *)
Definition sample_builtins : Builtins :=
  {| float_repr := λ _, "nan";
     encode_basestring := λ s, String dq (s +:+ String dq "");
     py_hash := λ '(s, ti, st, et, rs),
       Z.of_nat (String.length s) + default 0 ti + default 0 st
       + default 0 et + default 0 rs |}.

(** The loop of [__hash__]: numpy scalars are replaced, key by key, in the
    copy. *)
Definition coerce (v : value) : value :=
  match v with
  | VInt64 z => VInt z
  | VFloat32 x => VFloat x
  | _ => v
  end.

Definition coerce_items (d : dict) : dict :=
  foldl (λ acc kv,
           match kv.2 with
           | VInt64 z => dict_setitem acc kv.1 (VInt z)
           | VFloat32 x => dict_setitem acc kv.1 (VFloat x)
           | _ => acc
           end) d d.

Definition key_le : relation (string * value) := λ a b, String.le a.1 b.1.

Global Instance key_le_dec : RelDecision key_le.
Proof. intros a b. unfold key_le. apply _. Defined.

(** [json.dumps(parameters, sort_keys=True)]; [None] stands for the
    [TypeError] that an object of a numpy scalar type gets. *)
Definition encode_value `{Builtins} (v : value) : option string :=
  match v with
  | VNone => Some "null"
  | VBool true => Some "true"
  | VBool false => Some "false"
  | VInt z => Some (int_repr z)
  | VFloat x => Some (float_repr x)
  | VStr s => Some (encode_basestring s)
  | VInt64 _ | VFloat32 _ => None
  end.

Definition encode_item `{Builtins} (kv : string * value) : option string :=
  v ← encode_value kv.2; Some (encode_basestring kv.1 +:+ ": " +:+ v).

Definition json_dumps_sorted `{Builtins} (d : dict) : option string :=
  items ← mapM encode_item (merge_sort key_le d);
  Some ("{" +:+ String.concat ", " items +:+ "}").

(** [ObservationFeatures.__hash__] *)
Definition Features_hash `{Builtins} (self : loc) : M Z :=
  f ← load_features self;
  d ← load_dict (parameters f);
  let parameters := coerce_items d in
  match json_dumps_sorted parameters with
  | None => raise (TypeError "Object is not JSON serializable")
  | Some s =>
      mret (py_hash (s, trial_index f, start_time f, end_time f, random_split f))
  end.

(** Modelled from the spec: [Base.__eq__] of [ax/core/base.py], which the
    module inherits and which is not part of the sources.  "Two Feature
    Points are equal iff their canonicalized parameter mapping and all four
    context fields are equal", the mapping being canonicalized "via
    sorted-key serialization before hashing/comparison". *)
Definition Features_eq `{Builtins} (self other : loc) : M bool :=
  f ← load_features self;
  g ← load_features other;
  d1 ← load_dict (parameters f);
  d2 ← load_dict (parameters g);
  match json_dumps_sorted (coerce_items d1), json_dumps_sorted (coerce_items d2) with
  | Some s1, Some s2 =>
      mret (bool_decide (s1 = s2 ∧ trial_index f = trial_index g
                         ∧ start_time f = start_time g
                         ∧ end_time f = end_time g
                         ∧ random_split f = random_split g))
  | _, _ => raise (TypeError "Object is not JSON serializable")
  end.

(** ** ObservationData *)

Definition nat_repr (n : nat) : string := NilZero.string_of_uint (Nat.to_uint n).

(** [str] of a tuple of ints, as [str.format] renders a shape *)
Definition tuple_repr (t : list nat) : string :=
  match t with
  | [] => "()"
  | [n] => "(" +:+ nat_repr n +:+ ",)"
  | n :: t' =>
      "(" +:+ nat_repr n +:+ foldr (λ m acc, ", " +:+ nat_repr m +:+ acc) ")" t'
  end.

Definition shape_message (what : string) (expected actual : list nat) : string :=
  "Shape of " +:+ what +:+ " should be " +:+ tuple_repr expected
  +:+ ", is " +:+ tuple_repr actual +:+ ".".

(** [ObservationData.__init__] *)
Definition Data_init (names : list string) (means_ covariance_ : ndarray) : M loc :=
  let k := length names in
  if decide (shape means_ ≠ [k]) then
    raise (ValueError (shape_message "means" [k] (shape means_)))
  else if decide (shape covariance_ ≠ [k; k]) then
    raise (ValueError (shape_message "covariance" [k; k] (shape covariance_)))
  else
    alloc (OData {| metric_names := names; means := means_;
                    covariance := covariance_ |}).

(** ** numpy *)

(** [Series.values] of a float column: a one-dimensional array *)
Definition values (l : list float) : ndarray := {| shape := [length l]; flat := l |}.

(** [a ** 2] *)
Definition np_square (a : ndarray) : ndarray :=
  {| shape := shape a; flat := (λ x, PrimFloat.mul x x) <$> flat a |}.

(** [np.diag(v)] for a one-dimensional [v] *)
Definition np_diag (v : ndarray) : ndarray :=
  let n := length (flat v) in
  {| shape := [n; n];
     flat := mjoin (imap (λ i x, <[i := x]> (replicate n PrimFloat.zero)) (flat v)) |}.


(** ** The measurement table *)

(** A row of [data.df] that [groupby] keeps: no cell of its key is missing
    (the rows that it leaves out are those of [dropna] below).  The four
    columns that [Data] requires are always there; a cell of one of the five
    optional columns is read only when [columns] says the table has that
    column. *)
Record Row : Type := {
  col_arm_name : string;
  col_metric_name : string;
  col_mean : float;
  col_sem : float;
  col_trial_index : Z;
  col_start_time : Z;
  col_end_time : Z;
  col_random_split : Z;
  col_fidelities : string
}.

(** Which of the optional identifying columns [data.df.columns] has *)
Record Columns : Type := {
  has_trial_index : bool;
  has_start_time : bool;
  has_end_time : bool;
  has_random_split : bool;
  has_fidelities : bool
}.

Record DataFrame : Type := { columns : Columns; rows : list Row }.

Record Data : Type := { df : DataFrame }.

(** [dict(zip(feature_cols, g))]: a group's values in the identifying
    columns that the table has; a column that it lacks is no key of the
    dict. *)
Record GroupKey : Type := {
  g_arm_name : string;
  g_trial_index : option Z;
  g_start_time : option Z;
  g_end_time : option Z;
  g_random_split : option Z;
  g_fidelities : option string
}.

Global Instance GroupKey_eq_dec : EqDecision GroupKey.
Proof. solve_decision. Defined.

Definition cell {A} (present : bool) (x : A) : option A :=
  if present then Some x else None.

Definition row_key (c : Columns) (r : Row) : GroupKey :=
  {| g_arm_name := col_arm_name r;
     g_trial_index := cell (has_trial_index c) (col_trial_index r);
     g_start_time := cell (has_start_time c) (col_start_time r);
     g_end_time := cell (has_end_time c) (col_end_time r);
     g_random_split := cell (has_random_split c) (col_random_split r);
     g_fidelities := cell (has_fidelities c) (col_fidelities r) |}.

(** The order in which pandas hands out the groups: the keys sorted
    column by column, in the order of [feature_cols], which is the
    iteration order of a Python set.  Only that it is a rearrangement of the
    keys is used. *)
Class GroupOrder : Type := {
  group_sort : list GroupKey → list GroupKey;
  group_sort_perm : ∀ ks, group_sort ks ≡ₚ ks
}.

(** The keys as [remove_dups] lists them, each where it appears last in
    the table; that is pandas' order on the tables of the examples, whose
    rows come in ascending order of their keys. *)
Global Instance table_order : GroupOrder :=
  {| group_sort := λ ks, ks; group_sort_perm := λ ks, reflexivity ks |}.

Definition group_keys `{GroupOrder} (t : DataFrame) : list GroupKey :=
  group_sort (remove_dups (row_key (columns t) <$> rows t)).

Definition group_rows (t : DataFrame) (g : GroupKey) : list Row :=
  filter (λ r, row_key (columns t) r = g) (rows t).

(** [data.df.groupby(by=feature_cols)]: each key with its rows, in table
    order. *)
Definition groupby `{GroupOrder} (t : DataFrame) : list (GroupKey * list Row) :=
  (λ g, (g, group_rows t g)) <$> group_keys t.

(** *** Missing cells

    A cell of an identifying column may be missing ([None], [NaN], [NaT]).
    pandas' [groupby] leaves out every row whose key has a missing cell, so
    such a row is in no group. *)
Record RawRow : Type := {
  raw_arm_name : option string;
  raw_metric_name : string;
  raw_mean : float;
  raw_sem : float;
  raw_trial_index : option Z;
  raw_start_time : option Z;
  raw_end_time : option Z;
  raw_random_split : option Z;
  raw_fidelities : option string
}.

(** A key cell: of a column that the table lacks there is none to miss. *)
Definition key_cell {A} (present : bool) (x : option A) (unread : A) : option A :=
  if present then x else Some unread.

(** The row as [groupby] keeps it, when no cell of its key is missing *)
Definition kept (c : Columns) (r : RawRow) : option Row :=
  arm ← raw_arm_name r;
  ti ← key_cell (has_trial_index c) (raw_trial_index r) 0;
  st ← key_cell (has_start_time c) (raw_start_time r) 0;
  et ← key_cell (has_end_time c) (raw_end_time r) 0;
  rs ← key_cell (has_random_split c) (raw_random_split r) 0;
  fid ← key_cell (has_fidelities c) (raw_fidelities r) "";
  Some {| col_arm_name := arm; col_metric_name := raw_metric_name r;
          col_mean := raw_mean r; col_sem := raw_sem r; col_trial_index := ti;
          col_start_time := st; col_end_time := et; col_random_split := rs;
          col_fidelities := fid |}.

Definition dropna (c : Columns) (raw : list RawRow) : list Row := omap (kept c) raw.

(** The table that [groupby] works on, for a [data.df] with the rows [raw] *)
Definition grouped_table (c : Columns) (raw : list RawRow) : Data :=
  {| df := {| columns := c; rows := dropna c raw |} |}.

(** ** json.loads *)

(** The decoded document: an object, whose members are parameter values,
    or any other JSON value. *)
Inductive json : Type :=
  | JObject (d : dict)
  | JOther.

(** [json.loads] on a text whose members, when it is an object, are
    parameter values.  [None]: the decoder raises.  The model reports that
    as [JSONDecodeError], which is what a text that is no JSON gives; the
    decoder's other failures ([RecursionError] on deep nesting) are not told
    apart from it.  The decoder builds a Python dict, so the keys of a
    decoded object are unique. *)
Class JsonDecoder : Type := {
  json_loads : string → option json;
  json_loads_wf : ∀ s d, json_loads s = Some (JObject d) → dict_wf d
}.

(** A decoder for a fragment of JSON, for running the definitions: an object
    whose keys are strings without escapes and whose values are integers,
    such strings, [true], [false] or [null].  A later member with the key of
    an earlier one replaces its value, as in [json.loads].  The empty array
    is decoded too, to a value that is no object.  Every other text, valid
    JSON among it, is outside the fragment and treated as undecodable. *)
Definition is_space (c : ascii) : bool :=
  bool_decide (c = " "%char ∨ c = "009"%char ∨ c = "010"%char ∨ c = "013"%char).

Fixpoint skip_ws (s : string) : string :=
  match s with
  | String c s' => if is_space c then skip_ws s' else s
  | EmptyString => s
  end.

Definition digit (c : ascii) : option Z :=
  let n := Z.of_nat (nat_of_ascii c) in
  if bool_decide (48 ≤ n ≤ 57)%Z then Some (n - 48) else None.

(** The characters up to the closing quote, and what follows it *)
Fixpoint read_chars (s : string) : option (string * string) :=
  match s with
  | EmptyString => None
  | String c s' =>
      if decide (c = dq) then Some ("", s')
      else if decide (c = "\"%char) then None
      else '(k, rest) ← read_chars s'; Some (String c k, rest)
  end.

Fixpoint read_digits (s : string) (acc : Z) : Z * string :=
  match s with
  | String c s' =>
      match digit c with
      | Some n => read_digits s' (10 * acc + n)
      | None => (acc, s)
      end
  | EmptyString => (acc, s)
  end.

Definition read_int (s : string) : option (Z * string) :=
  match s with
  | String c s' =>
      n ← digit c;
      let '(z, rest) := read_digits s' n in
      match rest with
      | String "." _ | String "e" _ | String "E" _ => None
      | _ => Some (z, rest)
      end
  | EmptyString => None
  end.

Definition read_value (s : string) : option (value * string) :=
  match s with
  | String "t" (String "r" (String "u" (String "e" rest))) => Some (VBool true, rest)
  | String "f" (String "a" (String "l" (String "s" (String "e" rest)))) =>
      Some (VBool false, rest)
  | String "n" (String "u" (String "l" (String "l" rest))) => Some (VNone, rest)
  | String "-" rest => '(z, rest') ← read_int rest; Some (VInt (- z), rest')
  | String c rest =>
      if decide (c = dq) then '(str, rest') ← read_chars rest; Some (VStr str, rest')
      else '(z, rest') ← read_int s; Some (VInt z, rest')
  | EmptyString => None
  end.

Fixpoint read_members (fuel : nat) (s : string) (acc : dict) : option dict :=
  match fuel with
  | O => None
  | S fuel' =>
      match skip_ws s with
      | String c rest =>
          if decide (c = dq) then
            '(k, rest1) ← read_chars rest;
            match skip_ws rest1 with
            | String ":" rest2 =>
                '(v, rest3) ← read_value (skip_ws rest2);
                match skip_ws rest3 with
                | String "," rest4 => read_members fuel' rest4 (dict_setitem acc k v)
                | String "}" rest4 =>
                    if decide (skip_ws rest4 = "") then Some (dict_setitem acc k v)
                    else None
                | _ => None
                end
            | _ => None
            end
          else None
      | EmptyString => None
      end
  end.

Definition fragment_loads (s : string) : option json :=
  match skip_ws s with
  | String "{" rest =>
      match skip_ws rest with
      | String "}" rest' => if decide (skip_ws rest' = "") then Some (JObject []) else None
      | _ => JObject <$> read_members (String.length s) rest []
      end
  | String "[" rest =>
      match skip_ws rest with
      | String "]" rest' => if decide (skip_ws rest' = "") then Some JOther else None
      | _ => None
      end
  | _ => None
  end.

(** ** observations_from_data *)

(** [for param_name, val in fidelity_dict.items(): obs_parameters[param_name] = val] *)
Fixpoint override (obs_parameters : loc) (items : dict) : M unit :=
  match items with
  | [] => mret tt
  | (param_name, val) :: items' =>
      setitem obs_parameters param_name val;; override obs_parameters items'
  end.

(** The body of the loop over the groups *)
Definition convert_group `{JsonDecoder} (experiment : Experiment)
    (g : GroupKey) (d : list Row) : M Observation :=
  match arms_by_name experiment !! g_arm_name g with
  | None => raise (KeyError (g_arm_name g))
  | Some arm =>
      obs_parameters ← dict_copy (arm_parameters arm);
      p ← load_dict obs_parameters;
      let kw_parameters := if dict_truthy p then Some obs_parameters else None in
      match g_fidelities g with
      | None => mret tt
      | Some s =>
          match json_loads s with
          | None => raise JSONDecodeError
          | Some JOther => raise (AttributeError "object has no attribute 'items'")
          | Some (JObject fidelity_dict) => override obs_parameters fidelity_dict
          end
      end;;
      f ← Features_init_kwargs kw_parameters (g_trial_index g) (g_start_time g)
            (g_end_time g) (g_random_split g);
      o ← Data_init (col_metric_name <$> d) (values (col_mean <$> d))
            (np_diag (np_square (values (col_sem <$> d))));
      mret {| features := f; data := o; arm_name := Some (g_arm_name g) |}
  end.

Fixpoint convert_groups `{JsonDecoder} (experiment : Experiment)
    (groups : list (GroupKey * list Row)) (observations : list Observation)
  : M (list Observation) :=
  match groups with
  | [] => mret observations
  | (g, d) :: groups' =>
      o ← convert_group experiment g d;
      convert_groups experiment groups' (observations ++ [o])
  end.

Definition observations_from_data `{JsonDecoder} `{GroupOrder}
    (experiment : Experiment) (data_ : Data) : M (list Observation) :=
  convert_groups experiment (groupby (df data_)) [].

(** ** separate_observations *)

(** [copy.deepcopy] of an [ObservationFeatures]: a new object whose
    [parameters] is a new dict with the same items. *)
Definition deepcopy_features (l : loc) : M loc :=
  f ← load_features l;
  d ← load_dict (parameters f);
  p ← alloc (ODict d);
  alloc (OFeatures (set_parameters p f)).

(** [copy.deepcopy] of an [ObservationData] *)
Definition deepcopy_data (l : loc) : M loc :=
  d ← load_data l; alloc (OData d).

(** A list comprehension whose element expression runs in the monad *)
Fixpoint comprehension {A B} (f : A → M B) (l : list A) : M (list B) :=
  match l with
  | [] => mret []
  | x :: l' => y ← f x; ys ← comprehension f l'; mret (y :: ys)
  end.

Definition separate_observations (observations : list Observation) (copy : bool)
  : M (list loc * list loc) :=
  if copy then
    observation_features ← comprehension (λ obs, deepcopy_features (features obs))
                             observations;
    observation_data ← comprehension (λ obs, deepcopy_data (data obs)) observations;
    mret (observation_features, observation_data)
  else
    mret (features <$> observations, data <$> observations).

(** ** The vocabulary of the statements *)

(** The value a context field of [self] has after the merge *)
Definition merged (new old : option Z) : option Z :=
  match new with Some _ => new | None => old end.

Definition merge_features (fb fa : ObservationFeatures) : ObservationFeatures :=
  {| parameters := parameters fa;
     trial_index := merged (trial_index fb) (trial_index fa);
     start_time := merged (start_time fb) (start_time fa);
     end_time := merged (end_time fb) (end_time fa);
     random_split := merged (random_split fb) (random_split fa) |}.

(** The items that the group's [fidelities] cell contributes *)
Definition fidelity_items `{JsonDecoder} (g : GroupKey) : dict :=
  match g_fidelities g with
  | Some s => match json_loads s with Some (JObject fd) => fd | _ => [] end
  | None => []
  end.

(** A group that the loop body can convert: its arm is registered and has at
    least one parameter, and its [fidelities] cell, when the table has that
    column, decodes to an object. *)
Definition convertible `{JsonDecoder} (experiment : Experiment) (h : heap)
    (g : GroupKey) : Prop :=
  (∃ arm base, arms_by_name experiment !! g_arm_name g = Some arm
               ∧ h !! arm_parameters arm = Some (ODict base) ∧ base ≠ [])
  ∧ match g_fidelities g with
    | Some s => ∃ fd, json_loads s = Some (JObject fd)
    | None => True
    end.

(** A registry whose arms' mappings are dicts of the store *)
Definition registry_in (h : heap) (experiment : Experiment) : Prop :=
  ∀ name arm, arms_by_name experiment !! name = Some arm →
    ∃ base, h !! arm_parameters arm = Some (ODict base).

(** The three objects that the loop body allocates for a group, the first of
    them at reference [l] *)
Definition group_features (l : loc) (g : GroupKey) : ObservationFeatures :=
  {| parameters := l; trial_index := g_trial_index g; start_time := g_start_time g;
     end_time := g_end_time g; random_split := g_random_split g |}.

Definition group_data (d : list Row) : ObservationData :=
  {| metric_names := col_metric_name <$> d;
     means := values (col_mean <$> d);
     covariance := np_diag (np_square (values (col_sem <$> d))) |}.

Definition group_observation (l : loc) (g : GroupKey) : Observation :=
  {| features := S l; data := S (S l); arm_name := Some (g_arm_name g) |}.

(** An input Observation whose three objects are in the store *)
Definition observation_in (h : heap) (o : Observation) : Prop :=
  ∃ f d dt, h !! features o = Some (OFeatures f)
            ∧ h !! parameters f = Some (ODict d)
            ∧ h !! data o = Some (OData dt).

(** A store whose dicts have unique keys, as every dict of a Python program
    has *)
Definition store_wf (h : heap) : Prop :=
  ∀ l d, h !! l = Some (ODict d) → dict_wf d.

(** ** Inputs for running the definitions *)

(** The JSON text [{"x": 5}] *)
Definition x_is_5 : string := "{" +:+ String dq ("x" +:+ String dq ": 5}").

Definition arm1 : Arm := {| arm_parameters := 0%nat |}.

Definition example_experiment : Experiment :=
  {| arms_by_name := {["arm1" := arm1]} |}.

Definition example_columns (fid : bool) : Columns :=
  {| has_trial_index := false; has_start_time := false; has_end_time := false;
     has_random_split := false; has_fidelities := fid |}.

Definition example_row (arm metric : string) (mean sem : float) (fid : string) : Row :=
  {| col_arm_name := arm; col_metric_name := metric; col_mean := mean;
     col_sem := sem; col_trial_index := 0; col_start_time := 0; col_end_time := 0;
     col_random_split := 0; col_fidelities := fid |}.

Definition no_context (p : loc) : ObservationFeatures :=
  {| parameters := p; trial_index := None; start_time := None; end_time := None;
     random_split := None |}.

(** The end-to-end example of the spec: the registry [{"arm1": {"x": 1, "y": 2}}]
    and the rows (arm1, m1, 3.0, 0.5) and (arm1, m2, 4.0, 1.0). *)
Definition example_store : heap := [ODict [("x", VInt 1); ("y", VInt 2)]].

Definition example_data : Data :=
  {| df := {| columns := example_columns false;
              rows := [example_row "arm1" "m1" 3%float 0.5%float "";
                       example_row "arm1" "m2" 4%float 1%float ""] |} |}.

(** The fidelity example of the spec: the arm has [x = 1], the row's
    [fidelities] is [{"x": 5}]. *)
Definition fidelity_store : heap := [ODict [("x", VInt 1)]].

Definition fidelity_data : Data :=
  {| df := {| columns := example_columns true;
              rows := [example_row "arm1" "m1" 3%float 0.5%float x_is_5] |} |}.

(** The store of a registry whose arm has no parameters *)
Definition empty_store : heap := [ODict []].

(** Two rows of one arm that differ in their fidelities, [{"x": 5}] and
    [{}]: two groups *)
Definition two_fidelities_data : Data :=
  {| df := {| columns := example_columns true;
              rows := [example_row "arm1" "m1" 3%float 0.5%float x_is_5;
                       example_row "arm1" "m1" 4%float 1%float "{}"] |} |}.

(** A table that names an arm the registry lacks, after one that it has *)
Definition ghost_data : Data :=
  {| df := {| columns := example_columns false;
              rows := [example_row "arm1" "m1" 3%float 0.5%float "";
                       example_row "ghost" "m1" 4%float 1%float ""] |} |}.

(** Two Feature Points: A, at reference 2, has [{"x": 1, "y": 2}], trial
    index 1 and start time 10; B, at reference 3, has [{"y": 7, "z": 9}] and
    trial index 4. *)
Definition merge_store : heap :=
  [ODict [("x", VInt 1); ("y", VInt 2)];
   ODict [("y", VInt 7); ("z", VInt 9)];
   OFeatures {| parameters := 0%nat; trial_index := Some 1; start_time := Some 10;
                end_time := None; random_split := None |};
   OFeatures {| parameters := 1%nat; trial_index := Some 4; start_time := None;
                end_time := None; random_split := None |}].

(** Two Feature Points without context whose mappings are [{"a": 1, "b": 2}]
    and [{"b": 2, "a": 1}] *)
Definition hash_store : heap :=
  [ODict [("a", VInt 1); ("b", VInt 2)];
   ODict [("b", VInt 2); ("a", VInt 1)];
   OFeatures (no_context 0%nat);
   OFeatures (no_context 1%nat)].

(** The two modes of [separate_observations] on one Observation whose
    Feature Point has [{"x": 1}]: assigning [x = 5] through the returned
    Feature Point changes the Observation's own mapping when nothing was
    copied, and leaves it alone when the copy flag was set. *)
Definition split_store : heap :=
  [ODict [("x", VInt 1)];
   OFeatures (no_context 0%nat);
   OData {| metric_names := ["m1"]; means := values [3%float];
            covariance := np_diag (values [0.25%float]) |}].

Definition split_input : list Observation :=
  [{| features := 1%nat; data := 2%nat; arm_name := Some "arm1" |}].

Definition assign_through_result (copy : bool) : M (list loc * list loc * dict * dict) :=
  r ← separate_observations split_input copy;
  f ← load_features (default 0%nat (head r.1));
  setitem (parameters f) "x" (VInt 5);;
  original ← load_dict 0%nat;
  returned ← load_dict (parameters f);
  mret (r, original, returned).

(** [merge_store] with a third Feature Point C, at reference 5, that has
    [{"z": 0, "w": 3}] and end time 20 *)
Definition chain_store : heap :=
  merge_store
  ++ [ODict [("z", VInt 0); ("w", VInt 3)];
      OFeatures {| parameters := 4%nat; trial_index := None; start_time := None;
                   end_time := Some 20; random_split := None |}].

(** Two Feature Points whose mappings are [{"n": np.int64(3), "s": "u"}] and
    [{"s": "u", "n": 3}] *)
Definition numpy_store : heap :=
  [ODict [("n", VInt64 3); ("s", VStr "u")];
   ODict [("s", VStr "u"); ("n", VInt 3)];
   OFeatures (no_context 0%nat);
   OFeatures (no_context 1%nat)].

(** A table with a [trial_index] column *)
Definition context_data : Data :=
  {| df := {| columns := {| has_trial_index := true; has_start_time := false;
                            has_end_time := false; has_random_split := false;
                            has_fidelities := false |};
              rows := [example_row "arm1" "m1" 3%float 0.5%float "";
                       example_row "arm1" "m2" 4%float 1%float ""] |} |}.


(** The one Observation of [split_input], twice *)
Definition shared_input : list Observation := split_input ++ split_input.

(** The registry of the examples with a second arm, whose mapping would be
    at reference 7 *)
Definition larger_experiment : Experiment :=
  {| arms_by_name := {["arm1" := arm1; "arm2" := {| arm_parameters := 7%nat |}]} |}.


(** A table whose [fidelities] cell is the JSON text of an empty array *)
Definition array_fidelities_data : Data :=
  {| df := {| columns := example_columns true;
              rows := [example_row "arm1" "m1" 3%float 0.5%float "[]"] |} |}.

(** Three rows of [data.df], the second without an arm name *)
Definition raw_row (arm : option string) (metric : string) (mean sem : float) : RawRow :=
  {| raw_arm_name := arm; raw_metric_name := metric; raw_mean := mean;
     raw_sem := sem; raw_trial_index := None; raw_start_time := None;
     raw_end_time := None; raw_random_split := None; raw_fidelities := None |}.

Definition raw_rows : list RawRow :=
  [raw_row (Some "arm1") "m1" 3%float 0.5%float;
   raw_row None "m1" 5%float 2%float;
   raw_row (Some "arm1") "m2" 4%float 1%float].

(** * Properties *)

(** ** Dicts *)

Lemma dict_get_setitem (d : dict) (k k' : string) (v : value) :
  dict_get (dict_setitem d k v) k' = if decide (k = k') then Some v else dict_get d k'.
Proof.
  induction d as [|[k0 v0] d IH]; simpl.
  - by destruct (decide (k = k')).
  - destruct (decide (k0 = k)) as [->|Hne]; simpl.
    + by destruct (decide (k = k')).
    + destruct (decide (k0 = k')) as [->|]; [|done].
      by rewrite decide_False by congruence.
Qed.

Lemma dict_get_None (d : dict) (k : string) : dict_get d k = None ↔ k ∉ d.*1.
Proof.
  induction d as [|[k0 v0] d IH]; simpl.
  - split; [intros _; apply not_elem_of_nil | done].
  - rewrite not_elem_of_cons.
    destruct (decide (k0 = k)) as [->|]; [split; [done | by intros [? _]]|].
    rewrite IH. split; [done | by intros [_ ?]].
Qed.

Lemma dict_get_Some_elem (d : dict) (k : string) (v : value) :
  dict_get d k = Some v → (k, v) ∈ d.
Proof.
  induction d as [|[k0 v0] d IH]; simpl; [done|].
  destruct (decide (k0 = k)) as [->|]; [intros [= ->]; left | right; auto].
Qed.

Lemma dict_get_elem (d : dict) (k : string) (v : value) :
  dict_wf d → (k, v) ∈ d → dict_get d k = Some v.
Proof.
  unfold dict_wf. induction d as [|[k0 v0] d IH]; simpl; [by intros _ ?%elem_of_nil|].
  rewrite NoDup_cons, elem_of_cons. intros [Hk0 Hd] [[= -> ->]|Hin].
  - by rewrite decide_True.
  - rewrite decide_False; [auto|]. intros ->. apply Hk0.
    apply (list_elem_of_fmap_2 fst) in Hin. done.
Qed.

Lemma dict_setitem_keys (d : dict) (k : string) (v : value) :
  (dict_setitem d k v).*1 = d.*1 ++ (if decide (k ∈ d.*1) then [] else [k]).
Proof.
  induction d as [|[k0 v0] d IH]; [done|]. cbn [dict_setitem].
  destruct (decide (k0 = k)) as [->|Hne]; rewrite !fmap_cons; cbn [fst app].
  - rewrite decide_True by left. by rewrite app_nil_r.
  - rewrite IH. f_equal.
    destruct (decide (k ∈ d.*1)) as [Hin|Hin].
    + rewrite decide_True; [done | by right].
    + rewrite decide_False; [done|]. rewrite not_elem_of_cons.
      split; [congruence | done].
Qed.

Lemma dict_setitem_wf (d : dict) (k : string) (v : value) :
  dict_wf d → dict_wf (dict_setitem d k v).
Proof.
  unfold dict_wf. rewrite dict_setitem_keys. intros Hd.
  destruct (decide (k ∈ d.*1)); [by rewrite app_nil_r|].
  apply NoDup_app. split_and!; [done | | apply NoDup_singleton].
  by intros x Hx ->%list_elem_of_singleton.
Qed.

Lemma dict_update_cons (d : dict) (kv : string * value) (other : dict) :
  dict_update d (kv :: other) = dict_update (dict_setitem d kv.1 kv.2) other.
Proof. done. Qed.

Lemma dict_update_wf (d other : dict) : dict_wf d → dict_wf (dict_update d other).
Proof.
  revert d. induction other as [|kv other IH]; intros d Hd; [done|].
  rewrite dict_update_cons. by apply IH, dict_setitem_wf.
Qed.

Lemma dict_setitem_fresh (d : dict) (k : string) (v : value) :
  k ∉ d.*1 → dict_setitem d k v = d ++ [(k, v)].
Proof.
  induction d as [|[k0 v0] d IH]; simpl; [done|].
  rewrite not_elem_of_cons. intros [Hne Hk].
  rewrite decide_False by done. by rewrite IH.
Qed.

Lemma dict_update_app (pre items : dict) :
  dict_wf (pre ++ items) → dict_update pre items = pre ++ items.
Proof.
  revert pre. induction items as [|[k v] items IH]; intros pre Hwf.
  { by rewrite app_nil_r. }
  rewrite dict_update_cons. simpl.
  rewrite dict_setitem_fresh.
  - rewrite IH; by rewrite <-(assoc_L (++)).
  - unfold dict_wf in Hwf. rewrite fmap_app in Hwf.
    apply NoDup_app in Hwf as (_ & Hdisj & _).
    intros Hin. apply (Hdisj k Hin). left.
Qed.

(** Updating an empty dict gives the items of the other one. *)
Lemma dict_update_nil_l (items : dict) : dict_wf items → dict_update [] items = items.
Proof. apply (dict_update_app []). Qed.

(** After [d.update(other)] a key of [other] maps to [other]'s value and any
    other key to what [d] had. *)
Lemma dict_get_update (d other : dict) (k : string) :
  dict_wf other →
  dict_get (dict_update d other) k =
    match dict_get other k with Some v => Some v | None => dict_get d k end.
Proof.
  revert d. induction other as [|[k0 v0] other IH]; intros d Hwf; [done|].
  rewrite dict_update_cons. unfold dict_wf in *. simpl in *.
  apply NoDup_cons in Hwf as [Hk0 Hwf]. rewrite IH by done.
  rewrite dict_get_setitem. destruct (decide (k0 = k)) as [->|]; [|done].
  by apply dict_get_None in Hk0 as ->.
Qed.

(** [d.update(other)] keeps the keys of [d], in their order, and adds new
    ones after them. *)
Lemma dict_update_keys_prefix (d other : dict) :
  d.*1 `prefix_of` (dict_update d other).*1.
Proof.
  revert d. induction other as [|kv other IH]; intros d; [done|].
  rewrite dict_update_cons. etrans; [|apply IH].
  rewrite dict_setitem_keys. by apply prefix_app_r.
Qed.

(** ** Running computations *)

Lemma bind_ok {A B} (m : M A) (f : A → M B) (h h' : heap) (a : A) :
  m h = (h', inr a) → (m ≫= f) h = f a h'.
Proof. unfold mbind, M_bind. by intros ->. Qed.

Lemma bind_err {A B} (m : M A) (f : A → M B) (h h' : heap) (e : exn) :
  m h = (h', inl e) → (m ≫= f) h = (h', inl e).
Proof. unfold mbind, M_bind. by intros ->. Qed.

Lemma run_load_features (h : heap) (l : loc) (f : ObservationFeatures) :
  h !! l = Some (OFeatures f) → load_features l h = (h, inr f).
Proof. unfold load_features. by intros ->. Qed.

Lemma run_load_dict (h : heap) (l : loc) (d : dict) :
  h !! l = Some (ODict d) → load_dict l h = (h, inr d).
Proof. unfold load_dict. by intros ->. Qed.

Lemma run_load_mapping (h : heap) (l : loc) (d : dict) :
  h !! l = Some (ODict d) → load_mapping l h = (h, inr d).
Proof. unfold load_mapping. by intros ->. Qed.

Lemma run_load_data (h : heap) (l : loc) (d : ObservationData) :
  h !! l = Some (OData d) → load_data l h = (h, inr d).
Proof. unfold load_data. by intros ->. Qed.

Lemma run_setitem (h : heap) (l : loc) (d : dict) (k : string) (v : value) :
  h !! l = Some (ODict d) →
  setitem l k v h = (<[l := ODict (dict_setitem d k v)]> h, inr tt).
Proof. intros Hl. unfold setitem. by erewrite bind_ok by by apply run_load_dict. Qed.

Lemma run_dict_copy (h : heap) (l : loc) (d : dict) :
  h !! l = Some (ODict d) → dict_copy l h = (h ++ [ODict d], inr (length h)).
Proof. intros Hl. unfold dict_copy. by erewrite bind_ok by by apply run_load_dict. Qed.

Lemma run_store (h : heap) (l : loc) (o : object) :
  store l o h = (<[l := o]> h, inr tt).
Proof. done. Qed.

Lemma run_alloc (h : heap) (o : object) : alloc o h = (h ++ [o], inr (length h)).
Proof. done. Qed.

Lemma lookup_store_eq (h : heap) (l : loc) (o o' : object) :
  h !! l = Some o → <[l := o']> h !! l = Some o'.
Proof. intros Hl. apply list_lookup_insert_eq. by eapply lookup_lt_Some. Qed.

(** One step of a computation: the first action of a bind runs and returns. *)
Ltac step :=
  erewrite bind_ok by
    first [ by apply run_load_features | by apply run_load_dict
          | by apply run_load_mapping
          | by apply run_load_data | by apply run_dict_copy
          | by apply run_setitem | apply run_store | apply run_alloc
          | reflexivity ].

(** The same, when the run of the first action is a fact at hand. *)
Tactic Notation "step" "with" constr(H) := erewrite bind_ok by exact H.

(** ** update_features *)

Lemma run_copy_if_set (h : heap) (a b : loc) (fa fb : ObservationFeatures) get set :
  h !! a = Some (OFeatures fa) →
  h !! b = Some (OFeatures fb) →
  copy_if_set a b get set h =
    (match get fb with
     | Some _ => <[a := OFeatures (set (get fb) fa)]> h
     | None => h
     end, inr tt).
Proof.
  intros Ha Hb. unfold copy_if_set.
  step.
  destruct (get fb) as [z|]; [|done].
  unfold setattr. by step.
Qed.

Lemma merge_features_self (f : ObservationFeatures) : merge_features f f = f.
Proof. by destruct f as [? [] [] [] []]. Qed.

(** The four conditional assignments, one after the other *)
Lemma run_copy_fields (h : heap) (a b : loc) (fa fb : ObservationFeatures) :
  h !! a = Some (OFeatures fa) →
  h !! b = Some (OFeatures fb) →
  (copy_if_set a b trial_index set_trial_index;;
   copy_if_set a b start_time set_start_time;;
   copy_if_set a b end_time set_end_time;;
   copy_if_set a b random_split set_random_split;;
   mret a) h = (<[a := OFeatures (merge_features fb fa)]> h, inr a).
Proof.
  intros Ha Hb.
  assert (Hlt : (a < length h)%nat) by by eapply lookup_lt_Some.
  destruct (decide (a = b)) as [<-|Hne].
  - assert (fb = fa) as -> by congruence.
    assert (Hid : ∀ get set, (∀ f, set (get f) f = f) →
              copy_if_set a a get set h = (h, inr tt)).
    { intros get set Hgs. erewrite run_copy_if_set by done.
      destruct (get fa) eqn:Hg; [|done].
      by rewrite <-Hg, Hgs, list_insert_id. }
    erewrite bind_ok by (apply Hid; by intros []).
    erewrite bind_ok by (apply Hid; by intros []).
    erewrite bind_ok by (apply Hid; by intros []).
    erewrite bind_ok by (apply Hid; by intros []).
    by rewrite merge_features_self, list_insert_id.
  - assert (Hstep : ∀ h1 f1 get set,
              h1 !! a = Some (OFeatures f1) → h1 !! b = Some (OFeatures fb) →
              ∃ h2, copy_if_set a b get set h1 = (h2, inr tt)
                ∧ h2 = <[a := OFeatures
                          (if get fb is Some _ then set (get fb) f1 else f1)]> h1
                ∧ h2 !! b = Some (OFeatures fb)).
    { intros h1 f1 get set H1a H1b. erewrite run_copy_if_set by done.
      destruct (get fb); eexists; (split; [done|]); split; try done.
      - by rewrite list_lookup_insert_ne.
      - by rewrite list_insert_id. }
    destruct (Hstep h fa trial_index set_trial_index Ha Hb) as (h1 & R1 & -> & Hb1).
    step with R1. clear R1.
    edestruct (Hstep _ _ start_time set_start_time
                 (lookup_store_eq _ _ _ _ Ha) Hb1) as (h2 & R2 & -> & Hb2).
    step with R2. clear R2.
    edestruct (Hstep _ _ end_time set_end_time
                 (lookup_store_eq _ _ _ _ (lookup_store_eq _ _ _ _ Ha)) Hb2)
      as (h3 & R3 & -> & Hb3).
    step with R3. clear R3.
    edestruct (Hstep _ _ random_split set_random_split
                 (lookup_store_eq _ _ _ _
                    (lookup_store_eq _ _ _ _ (lookup_store_eq _ _ _ _ Ha))) Hb3)
      as (h4 & R4 & -> & Hb4).
    step with R4. clear R4.
    rewrite !list_insert_insert_eq. unfold mret, M_ret. do 3 f_equal.
    destruct fa, fb as [? [] [] [] []]; done.
Qed.

(** C3. [update_features] called on A with B returns A itself.  Afterwards
    A's [parameters] is still the same dict object; in it every key of
    [B.parameters] maps to B's value and every other key to the value it had
    (entries are overwritten or added, none is removed, and the keys A had
    keep their order); each of the four context fields of A holds B's value
    when B's is set and its old value when B's is unset; no other object
    changes. *)
Theorem update_features_merges (h : heap) (a b : loc)
    (fa fb : ObservationFeatures) (da db : dict) :
  h !! a = Some (OFeatures fa) →
  h !! b = Some (OFeatures fb) →
  h !! parameters fa = Some (ODict da) →
  h !! parameters fb = Some (ODict db) →
  dict_wf db →
  ∃ h' fa' da',
    update_features a b h = (h', inr a)
    ∧ h' !! a = Some (OFeatures fa')
    ∧ parameters fa' = parameters fa
    ∧ h' !! parameters fa = Some (ODict da')
    ∧ (∀ k, dict_get da' k =
              match dict_get db k with Some v => Some v | None => dict_get da k end)
    ∧ (∀ k, is_Some (dict_get da k) → is_Some (dict_get da' k))
    ∧ da.*1 `prefix_of` da'.*1
    ∧ trial_index fa' = merged (trial_index fb) (trial_index fa)
    ∧ start_time fa' = merged (start_time fb) (start_time fa)
    ∧ end_time fa' = merged (end_time fb) (end_time fa)
    ∧ random_split fa' = merged (random_split fb) (random_split fa)
    ∧ (∀ l, l ≠ a → l ≠ parameters fa → h' !! l = h !! l).
Proof.
  intros Ha Hb Hda Hdb Hwf.
  assert (Hap : a ≠ parameters fa) by (intros E; rewrite <-E in Hda; congruence).
  assert (Hbp : b ≠ parameters fa) by (intros E; rewrite <-E in Hda; congruence).
  exists (<[a := OFeatures (merge_features fb fa)]>
            (<[parameters fa := ODict (dict_update da db)]> h)),
         (merge_features fb fa), (dict_update da db).
  split_and!; try done.
  - unfold update_features.
    do 5 step.
    apply run_copy_fields; by rewrite list_lookup_insert_ne.
  - apply lookup_store_eq with (OFeatures fa). by rewrite list_lookup_insert_ne.
  - rewrite list_lookup_insert_ne by done. by eapply lookup_store_eq.
  - intros k. by apply dict_get_update.
  - intros k [v Hv]. rewrite dict_get_update, Hv by done.
    destruct (dict_get db k); eauto.
  - apply dict_update_keys_prefix.
  - intros l Hla Hlp. by rewrite !list_lookup_insert_ne.
Qed.

(** ** from_arm *)

(** C2.  [from_arm] returns a new [ObservationFeatures] whose [parameters]
    is a dict of its own with the entries of the arm's mapping, and whose
    four context fields are the supplied values ([None] when not supplied).
    The two mappings share no state: an assignment through the Feature
    Point leaves the arm's mapping as it was, and an assignment to the arm's
    mapping leaves the Feature Point's.  Nothing that existed before the
    call changes. *)
Theorem from_arm_copies_parameters (h : heap) (arm : Arm) (d : dict)
    (ti st et rs : option Z) :
  h !! arm_parameters arm = Some (ODict d) →
  ∃ h' fp f,
    from_arm arm ti st et rs h = (h', inr fp)
    ∧ h !! fp = None
    ∧ h' !! fp = Some (OFeatures f)
    ∧ parameters f ≠ arm_parameters arm
    ∧ h !! parameters f = None
    ∧ h' !! parameters f = Some (ODict d)
    ∧ trial_index f = ti ∧ start_time f = st ∧ end_time f = et ∧ random_split f = rs
    ∧ h `prefix_of` h'
    ∧ (∀ k v, ∃ h'',
         setitem (parameters f) k v h' = (h'', inr tt)
         ∧ h'' !! parameters f = Some (ODict (dict_setitem d k v))
         ∧ h'' !! arm_parameters arm = Some (ODict d)
         ∧ h `prefix_of` h'')
    ∧ (∀ k v, ∃ h'',
         setitem (arm_parameters arm) k v h' = (h'', inr tt)
         ∧ h'' !! arm_parameters arm = Some (ODict (dict_setitem d k v))
         ∧ h'' !! parameters f = Some (ODict d)
         ∧ h'' !! fp = Some (OFeatures f)).
Proof.
  intros Harm.
  pose proof (lookup_lt_Some _ _ _ Harm) as Hlt.
  set (f := {| parameters := length h; trial_index := ti; start_time := st;
               end_time := et; random_split := rs |}).
  set (h' := (h ++ [ODict d]) ++ [OFeatures f]).
  assert (Hp : h' !! length h = Some (ODict d)).
  { unfold h'. rewrite lookup_app_l by (rewrite length_app; simpl; lia).
    by apply list_lookup_middle. }
  assert (Hfp : h' !! S (length h) = Some (OFeatures f)).
  { unfold h'. apply list_lookup_middle. rewrite length_app. simpl. lia. }
  assert (Harm' : h' !! arm_parameters arm = Some (ODict d)).
  { unfold h'. rewrite <-app_assoc. by apply lookup_app_l_Some. }
  assert (Hpre : h `prefix_of` h').
  { unfold h'. rewrite <-app_assoc. by apply prefix_app_r. }
  exists h', (S (length h)), f. split.
  { unfold from_arm, Arm_parameters. step.
    unfold Features_init. rewrite run_alloc. unfold h', f.
    by rewrite length_app, Nat.add_1_r. }
  split; [apply lookup_ge_None_2; lia|].
  split; [exact Hfp|].
  split; [simpl; lia|].
  split; [by apply lookup_ge_None_2|].
  split; [exact Hp|].
  do 4 (split; [reflexivity|]).
  split; [exact Hpre|].
  split.
  - intros k v. eexists. split; [by apply run_setitem|]. cbn [parameters f].
    split; [by eapply lookup_store_eq|].
    split; [rewrite list_lookup_insert_ne by lia; exact Harm'|].
    unfold h'. rewrite <-app_assoc, insert_app_r_alt by lia.
    by apply prefix_app_r.
  - intros k v. eexists. split; [by apply run_setitem|]. cbn [parameters f].
    split; [by eapply lookup_store_eq|].
    split; rewrite list_lookup_insert_ne by lia; done.
Qed.

(** ** ObservationData.__init__ *)

(** Shapes and a message, as Python prints them *)
Example tuple_repr_examples :
  tuple_repr [] = "()" ∧ tuple_repr [3%nat] = "(3,)"
  ∧ tuple_repr [2%nat; 2%nat] = "(2, 2)" ∧ tuple_repr [10%nat; 0%nat; 7%nat] = "(10, 0, 7)".
Proof. done. Qed.

Example shape_message_example :
  shape_message "means" [2%nat] [3%nat] = "Shape of means should be (2,), is (3,).".
Proof. done. Qed.

(** C4. With k metric names the constructor returns an [ObservationData]
    exactly when [means] has shape (k,) and [covariance] has shape (k, k),
    and the object then holds the three arguments.  Otherwise it raises
    [ValueError] and allocates nothing; the message names the first array
    whose shape is wrong ([means] before [covariance]), the shape it should
    have and the shape it has. *)
Theorem Data_init_checks_shapes (h : heap) (names : list string) (m c : ndarray) :
  let k := length names in
  ((∃ h' l, Data_init names m c h = (h', inr l)) ↔ shape m = [k] ∧ shape c = [k; k])
  ∧ (shape m = [k] → shape c = [k; k] →
     Data_init names m c h =
       (h ++ [OData {| metric_names := names; means := m; covariance := c |}],
        inr (length h)))
  ∧ (shape m ≠ [k] →
     Data_init names m c h =
       (h, inl (ValueError ("Shape of means should be " +:+ tuple_repr [k]
                            +:+ ", is " +:+ tuple_repr (shape m) +:+ "."))))
  ∧ (shape m = [k] → shape c ≠ [k; k] →
     Data_init names m c h =
       (h, inl (ValueError ("Shape of covariance should be " +:+ tuple_repr [k; k]
                            +:+ ", is " +:+ tuple_repr (shape c) +:+ ".")))).
Proof.
  intros k. unfold Data_init. fold k.
  destruct (decide (shape m ≠ [k])) as [Hm|Hm%dec_stable].
  { split_and!; try done. split; [by intros (? & ? & ?) | by intros [? _]]. }
  destruct (decide (shape c ≠ [k; k])) as [Hc|Hc%dec_stable].
  { split_and!; try done. split; [by intros (? & ? & ?) | by intros [_ ?]]. }
  split_and!; try done. split; [done|]. intros _. by eexists _, _.
Qed.

(** ** Hashing *)

Lemma dict_setitem_middle (pre suf : dict) (k : string) (v v' : value) :
  k ∉ pre.*1 → dict_setitem (pre ++ (k, v) :: suf) k v' = pre ++ (k, v') :: suf.
Proof.
  induction pre as [|[k0 v0] pre IH]; simpl.
  - intros _. by rewrite decide_True.
  - rewrite not_elem_of_cons. intros [Hne Hpre].
    rewrite decide_False by done. by rewrite IH.
Qed.

Lemma coerce_fmap_keys (d : dict) : (prod_map id coerce <$> d).*1 = d.*1.
Proof. rewrite <-list_fmap_compose. apply list_fmap_ext. by intros ? []. Qed.

Lemma coerce_items_go (pre suf : dict) :
  dict_wf (pre ++ suf) →
  foldl (λ acc kv,
           match kv.2 with
           | VInt64 z => dict_setitem acc kv.1 (VInt z)
           | VFloat32 x => dict_setitem acc kv.1 (VFloat x)
           | _ => acc
           end) ((prod_map id coerce <$> pre) ++ suf) suf
  = prod_map id coerce <$> (pre ++ suf).
Proof.
  revert pre. induction suf as [|[k v] suf IH]; intros pre Hwf.
  { by rewrite !app_nil_r. }
  assert (Hk : k ∉ (prod_map id coerce <$> pre).*1).
  { unfold dict_wf in Hwf. rewrite fmap_app in Hwf.
    apply NoDup_app in Hwf as (_ & Hdisj & _).
    rewrite coerce_fmap_keys. intros Hin. apply (Hdisj k); [done | left]. }
  specialize (IH (pre ++ [(k, v)])).
  rewrite <-!(assoc_L (++)), fmap_app in IH. simpl in IH.
  rewrite <-IH by done. simpl. f_equal. rewrite <-(assoc_L (++)). simpl.
  destruct v; simpl; try done; by apply dict_setitem_middle.
Qed.

(** The loop of [__hash__] replaces the numpy scalars and keeps every key in
    its place. *)
Lemma coerce_items_fmap (d : dict) :
  dict_wf d → coerce_items d = prod_map id coerce <$> d.
Proof. intros Hwf. by apply (coerce_items_go []). Qed.

Global Instance key_le_trans : Transitive key_le.
Proof. intros a b c. unfold key_le. apply (transitivity (R := String.le)). Qed.

Global Instance key_le_total : Total key_le.
Proof. intros a b. unfold key_le. apply (total String.le). Qed.

(** Sorting by key forgets the insertion order. *)
Lemma merge_sort_insertion_order (d1 d2 : dict) :
  dict_wf d1 → d1 ≡ₚ d2 → merge_sort key_le d1 = merge_sort key_le d2.
Proof.
  intros Hwf Hperm.
  apply (StronglySorted_unique_strong key_le);
    [|apply (StronglySorted_merge_sort key_le)..|by rewrite !merge_sort_Permutation].
  intros [k1 v1] [k2 v2] H1 H2 Hle1 Hle2. unfold key_le in *. simpl in *.
  assert (k1 = k2) as -> by by apply (anti_symm String.le).
  rewrite merge_sort_Permutation in H1, H2. rewrite <-Hperm in H2.
  apply (dict_get_elem _ _ _ Hwf) in H1, H2. congruence.
Qed.

Lemma json_dumps_sorted_insertion_order `{Builtins} (d1 d2 : dict) :
  dict_wf d1 → d1 ≡ₚ d2 →
  json_dumps_sorted (coerce_items d1) = json_dumps_sorted (coerce_items d2).
Proof.
  intros Hwf Hperm.
  assert (Hwf2 : dict_wf d2) by (unfold dict_wf; by rewrite <-Hperm).
  rewrite !coerce_items_fmap by done. unfold json_dumps_sorted.
  rewrite (merge_sort_insertion_order (prod_map id coerce <$> d1)
             (prod_map id coerce <$> d2)); [done| |by apply fmap_Permutation].
  unfold dict_wf. by rewrite coerce_fmap_keys.
Qed.

(** After the loop every value can be serialized. *)
Lemma json_dumps_sorted_coerced `{Builtins} (d : dict) :
  dict_wf d → is_Some (json_dumps_sorted (coerce_items d)).
Proof.
  intros Hwf. rewrite coerce_items_fmap by done. unfold json_dumps_sorted.
  assert (Hm : is_Some (mapM encode_item (merge_sort key_le (prod_map id coerce <$> d)))).
  { apply mapM_is_Some, Forall_forall. intros [k v].
    rewrite merge_sort_Permutation. intros ([k' v'] & [= -> ->] & _)%list_elem_of_fmap.
    unfold encode_item. simpl. by destruct v' as [| [] | | | | |]. }
  destruct Hm as [items ->]. by eexists.
Qed.

(** C8. Two Feature Points whose parameter mappings hold the same items,
    inserted in whatever order, and whose four context fields agree have the
    same hash; and [==] (as the spec defines it) answers [True]. *)
Theorem hash_ignores_insertion_order `{Builtins} (h : heap) (a b : loc)
    (fa fb : ObservationFeatures) (da db : dict) :
  h !! a = Some (OFeatures fa) →
  h !! b = Some (OFeatures fb) →
  h !! parameters fa = Some (ODict da) →
  h !! parameters fb = Some (ODict db) →
  dict_wf da →
  da ≡ₚ db →
  trial_index fa = trial_index fb →
  start_time fa = start_time fb →
  end_time fa = end_time fb →
  random_split fa = random_split fb →
  ∃ z, Features_hash a h = (h, inr z)
       ∧ Features_hash b h = (h, inr z)
       ∧ Features_eq a b h = (h, inr true).
Proof.
  intros Ha Hb Hda Hdb Hwf Hperm Hti Hst Het Hrs.
  pose proof (json_dumps_sorted_insertion_order da db Hwf Hperm) as Hs.
  destruct (json_dumps_sorted_coerced da Hwf) as [s Hsa].
  exists (py_hash (s, trial_index fa, start_time fa, end_time fa, random_split fa)).
  split_and!.
  - unfold Features_hash.
    do 2 step.
    by rewrite Hsa.
  - unfold Features_hash.
    do 2 step.
    by rewrite <-Hs, Hsa, Hti, Hst, Het, Hrs.
  - unfold Features_eq.
    do 4 step.
    rewrite <-Hs, Hsa. by rewrite bool_decide_true.
Qed.

(** ** numpy: the diagonal matrix *)


Lemma shape_np_diag (v : ndarray) :
  shape (np_diag v) = [length (flat v); length (flat v)].
Proof. done. Qed.


(** ** observations_from_data: one group *)

Lemma run_override (h : heap) (l : loc) (p items : dict) :
  h !! l = Some (ODict p) →
  override l items h = (<[l := ODict (dict_update p items)]> h, inr tt).
Proof.
  revert p h. induction items as [|[k v] items IH]; intros p h Hl; simpl.
  - by rewrite list_insert_id.
  - step.
    erewrite IH by by eapply lookup_store_eq.
    by rewrite list_insert_insert_eq.
Qed.

Lemma run_Data_init (h : heap) (names : list string) (m c : ndarray) :
  shape m = [length names] → shape c = [length names; length names] →
  Data_init names m c h =
    (h ++ [OData {| metric_names := names; means := m; covariance := c |}],
     inr (length h)).
Proof.
  intros Hm Hc. unfold Data_init.
  rewrite decide_False by (by intros ?). by rewrite decide_False by (by intros ?).
Qed.

Lemma run_convert_group `{JsonDecoder} (experiment : Experiment) (h : heap)
    (g : GroupKey) (d : list Row) (arm : Arm) (base : dict) :
  arms_by_name experiment !! g_arm_name g = Some arm →
  h !! arm_parameters arm = Some (ODict base) →
  base ≠ [] →
  match g_fidelities g with
  | Some s => ∃ fd, json_loads s = Some (JObject fd)
  | None => True
  end →
  convert_group experiment g d h =
    (h ++ [ODict (dict_update base (fidelity_items g));
           OFeatures (group_features (length h) g);
           OData (group_data d)],
     inr (group_observation (length h) g)).
Proof.
  intros Harm Hbase Hne Hfid. unfold convert_group. rewrite Harm.
  step.
  assert (Hnew : (h ++ [ODict base]) !! length h = Some (ODict base))
    by by apply list_lookup_middle.
  step.
  assert (dict_truthy base = true) as -> by by destruct base.
  assert (Hov : (match g_fidelities g with
                 | Some s =>
                     match json_loads s with
                     | Some (JObject fidelity_dict) => override (length h) fidelity_dict
                     | Some JOther => raise (AttributeError "object has no attribute 'items'")
                     | None => raise JSONDecodeError
                     end
                 | None => mret tt
                 end) (h ++ [ODict base])
                = (h ++ [ODict (dict_update base (fidelity_items g))], inr tt)).
  { unfold fidelity_items. destruct (g_fidelities g) as [s|]; [|done].
    destruct Hfid as [fd ->]. erewrite run_override by done.
    by rewrite insert_app_r_alt, Nat.sub_diag by done. }
  step with Hov.
  step.
  erewrite bind_ok.
  2:{ apply run_Data_init; simpl; by rewrite !length_fmap. }
  unfold mret, M_ret. rewrite !length_app. simpl.
  rewrite <-!(assoc_L (++)). simpl.
  replace (length h + 1)%nat with (S (length h)) by lia.
  by replace (S (length h) + 1)%nat with (S (S (length h))) by lia.
Qed.

(** Whatever happens to a group, the store only grows: the objects that were
    there before the loop body ran are still there, unchanged. *)
Lemma convert_group_extends `{JsonDecoder} (experiment : Experiment) (h : heap)
    (g : GroupKey) (d : list Row) :
  h `prefix_of` (convert_group experiment g d h).1.
Proof.
  unfold convert_group.
  destruct (arms_by_name experiment !! g_arm_name g) as [arm|]; [|done].
  destruct (h !! arm_parameters arm) as [o|] eqn:Hbase.
  2:{ unfold dict_copy, load_dict, mbind, M_bind. by rewrite Hbase. }
  destruct o as [base| |];
    try (unfold dict_copy, load_dict, mbind, M_bind; by rewrite Hbase).
  step.
  assert (Hnew : (h ++ [ODict base]) !! length h = Some (ODict base))
    by by apply list_lookup_middle.
  step.
  assert (Hov : ∃ base' r,
             (match g_fidelities g with
              | Some s =>
                  match json_loads s with
                  | Some (JObject fidelity_dict) => override (length h) fidelity_dict
                  | Some JOther => raise (AttributeError "object has no attribute 'items'")
                  | None => raise JSONDecodeError
                  end
              | None => mret tt
              end) (h ++ [ODict base]) = (h ++ [ODict base'], r)).
  { destruct (g_fidelities g) as [s|]; [|by eexists _, _].
    destruct (json_loads s) as [[fd|]|]; [|by eexists _, _..].
    erewrite run_override by done.
    rewrite insert_app_r_alt, Nat.sub_diag by done. by eexists _, _. }
  destruct Hov as (base' & [e|[]] & Hov).
  { erewrite bind_err by exact Hov. by apply prefix_app_r. }
  step with Hov.
  destruct (dict_truthy base); simpl.
  - step.
    erewrite bind_ok.
    2:{ apply run_Data_init; simpl; by rewrite !length_fmap. }
    simpl. rewrite <-!(assoc_L (++)). by apply prefix_app_r.
  - by apply prefix_app_r.
Qed.

Lemma convert_group_unknown_arm `{JsonDecoder} (experiment : Experiment) (h : heap)
    (g : GroupKey) (d : list Row) :
  arms_by_name experiment !! g_arm_name g = None →
  convert_group experiment g d h = (h, inl (KeyError (g_arm_name g))).
Proof. intros Harm. unfold convert_group. by rewrite Harm. Qed.

(** An arm without parameters: the copy is falsy, [obs_kwargs] gets no
    ["parameters"], and the constructor call is rejected, whatever the
    fidelities add to the copy in between. *)
Lemma convert_group_empty_arm `{JsonDecoder} (experiment : Experiment) (h : heap)
    (g : GroupKey) (d : list Row) (arm : Arm) :
  arms_by_name experiment !! g_arm_name g = Some arm →
  h !! arm_parameters arm = Some (ODict []) →
  match g_fidelities g with
  | Some s => ∃ fd, json_loads s = Some (JObject fd)
  | None => True
  end →
  convert_group experiment g d h =
    (h ++ [ODict (fidelity_items g)],
     inl (TypeError "__init__() missing 1 required positional argument: 'parameters'")).
Proof.
  intros Harm Hbase Hfid. unfold convert_group. rewrite Harm.
  step.
  assert (Hnew : (h ++ [ODict []]) !! length h = Some (ODict []))
    by by apply list_lookup_middle.
  step.
  assert (Hov : (match g_fidelities g with
                 | Some s =>
                     match json_loads s with
                     | Some (JObject fidelity_dict) => override (length h) fidelity_dict
                     | Some JOther => raise (AttributeError "object has no attribute 'items'")
                     | None => raise JSONDecodeError
                     end
                 | None => mret tt
                 end) (h ++ [ODict []])
                = (h ++ [ODict (dict_update [] (fidelity_items g))], inr tt)).
  { unfold fidelity_items. destruct (g_fidelities g) as [s|]; [|done].
    destruct Hfid as [fd ->]. erewrite run_override by done.
    by rewrite insert_app_r_alt, Nat.sub_diag by done. }
  step with Hov. simpl.
  rewrite dict_update_nil_l; [done|].
  unfold fidelity_items. destruct (g_fidelities g) as [s|]; [|apply NoDup_nil_2].
  destruct Hfid as [fd Hfd]. rewrite Hfd. by eapply json_loads_wf.
Qed.

(** ** observations_from_data: the loop *)

Lemma convert_groups_extends `{JsonDecoder} (experiment : Experiment)
    (groups : list (GroupKey * list Row)) (acc : list Observation) (h : heap) :
  h `prefix_of` (convert_groups experiment groups acc h).1.
Proof.
  revert acc h. induction groups as [|[g d] groups IH]; intros acc h; simpl; [done|].
  pose proof (convert_group_extends experiment h g d) as Hext.
  unfold mbind, M_bind.
  destruct (convert_group experiment g d h) as [h1 [e|o]]; simpl in *; [done|].
  etrans; [exact Hext | apply IH].
Qed.

(** When every group is convertible the loop allocates three objects per
    group, one group after the other, and returns the observations in the
    order of the groups. *)
Lemma run_convert_groups `{JsonDecoder} (experiment : Experiment) (h0 : heap)
    (groups : list (GroupKey * list Row)) (acc : list Observation) (h : heap) :
  h0 `prefix_of` h →
  Forall (λ gd, convertible experiment h0 gd.1) groups →
  ∃ h',
    convert_groups experiment groups acc h =
      (h', inr (acc ++ imap (λ i gd, group_observation (length h + 3 * i) gd.1) groups))
    ∧ h `prefix_of` h'
    ∧ length h' = (length h + 3 * length groups)%nat
    ∧ ∀ i g d, groups !! i = Some (g, d) →
        ∃ arm base,
          arms_by_name experiment !! g_arm_name g = Some arm
          ∧ h0 !! arm_parameters arm = Some (ODict base)
          ∧ h' !! (length h + 3 * i)%nat
            = Some (ODict (dict_update base (fidelity_items g)))
          ∧ h' !! S (length h + 3 * i)
            = Some (OFeatures (group_features (length h + 3 * i) g))
          ∧ h' !! S (S (length h + 3 * i)) = Some (OData (group_data d)).
Proof.
  intros Hpre Hall. revert acc h Hpre.
  induction Hall as [|[g d] groups Hg _ IH]; intros acc h Hpre.
  { exists h. simpl. split_and!; [by rewrite app_nil_r | done | lia |].
    intros i g d. by rewrite lookup_nil. }
  destruct Hg as ((arm & base & Harm & Hbase & Hne) & Hfid). cbn [fst] in *.
  pose proof (run_convert_group experiment h g d arm base Harm
                (prefix_lookup_Some _ _ _ _ Hbase Hpre) Hne Hfid) as Hrun.
  set (h1 := h ++ [ODict (dict_update base (fidelity_items g));
                   OFeatures (group_features (length h) g); OData (group_data d)])
    in *.
  assert (Hlen1 : length h1 = (length h + 3)%nat)
    by (unfold h1; rewrite length_app; simpl; lia).
  assert (Hpre1 : h `prefix_of` h1) by by apply prefix_app_r.
  destruct (IH (acc ++ [group_observation (length h) g]) h1) as (h' & Hrest & Hext & Hlen & Hobj).
  { by etrans. }
  exists h'. split_and!.
  - cbn [convert_groups]. step with Hrun. rewrite Hrest. do 2 f_equal.
    rewrite <-(assoc_L (++)). simpl. do 2 f_equal.
    { f_equal. lia. }
    apply imap_ext. intros i [g' d'] _. simpl. f_equal. lia.
  - by etrans.
  - cbn [length]. lia.
  - intros [|i] g' d' Hi; simpl in Hi.
    + injection Hi as <- <-. exists arm, base.
      replace (length h + 3 * 0)%nat with (length h) by lia.
      split_and!; [done..| | |];
        (eapply prefix_lookup_Some; [|exact Hext]); unfold h1.
      * by apply list_lookup_middle.
      * rewrite lookup_app_r by lia.
        by replace (S (length h) - length h)%nat with 1%nat by lia.
      * rewrite lookup_app_r by lia.
        by replace (S (S (length h)) - length h)%nat with 2%nat by lia.
    + destruct (Hobj i g' d' Hi) as (arm' & base' & ? & ? & Hd & Hf & Ho).
      exists arm', base'.
      replace (length h + 3 * S i)%nat with (length h1 + 3 * i)%nat by lia.
      by split_and!.
Qed.



(** ** The groups of a table *)

Lemma elem_of_group_keys `{GroupOrder} (t : DataFrame) (g : GroupKey) :
  g ∈ group_keys t ↔ ∃ r, r ∈ rows t ∧ row_key (columns t) r = g.
Proof.
  unfold group_keys. rewrite group_sort_perm, elem_of_remove_dups, list_elem_of_fmap.
  split; intros (r & ? & ?); by exists r.
Qed.

Lemma NoDup_group_keys `{GroupOrder} (t : DataFrame) : NoDup (group_keys t).
Proof. unfold group_keys. rewrite group_sort_perm. apply NoDup_remove_dups. Qed.


Lemma groupby_keys `{GroupOrder} (t : DataFrame) : (groupby t).*1 = group_keys t.
Proof.
  unfold groupby. rewrite <-list_fmap_compose. apply list_fmap_id.
Qed.

Lemma lookup_groupby `{GroupOrder} (t : DataFrame) (i : nat) (g : GroupKey)
    (d : list Row) :
  groupby t !! i = Some (g, d) ↔ group_keys t !! i = Some g ∧ d = group_rows t g.
Proof.
  unfold groupby. rewrite list_lookup_fmap.
  destruct (group_keys t !! i) as [g'|]; simpl.
  - split; [by intros [= -> ->] | by intros [[= ->] ->]].
  - split; [done | by intros [? _]].
Qed.

(** Every row of the table belongs to the group of its key, and a group has
    the rows of its key and no others, in table order. *)
Lemma elem_of_group_rows (t : DataFrame) (g : GroupKey) (r : Row) :
  r ∈ group_rows t g ↔ r ∈ rows t ∧ row_key (columns t) r = g.
Proof. unfold group_rows. rewrite list_elem_of_filter. by split; intros [? ?]. Qed.

(** ** observations_from_data: the whole call *)

Lemma convertible_group_keys `{JsonDecoder} `{GroupOrder} (experiment : Experiment)
    (h : heap) (t : DataFrame) (P : GroupKey → Prop) :
  (∀ r, r ∈ rows t → P (row_key (columns t) r)) →
  Forall (λ gd : GroupKey * list Row, P gd.1) (groupby t).
Proof.
  intros Hrows. apply Forall_fmap with (f := fst) (P := P).
  rewrite groupby_keys. apply Forall_forall.
  intros g (r & Hr & <-)%elem_of_group_keys. by apply Hrows.
Qed.

Lemma run_observations_from_data `{JsonDecoder} `{GroupOrder}
    (experiment : Experiment) (data_ : Data) (h : heap) :
  let t := df data_ in
  (∀ r, r ∈ rows t → convertible experiment h (row_key (columns t) r)) →
  ∃ h',
    observations_from_data experiment data_ h =
      (h', inr (imap (λ i g, group_observation (length h + 3 * i) g) (group_keys t)))
    ∧ h `prefix_of` h'
    ∧ length h' = (length h + 3 * length (group_keys t))%nat
    ∧ ∀ i g, group_keys t !! i = Some g →
        ∃ arm base,
          arms_by_name experiment !! g_arm_name g = Some arm
          ∧ h !! arm_parameters arm = Some (ODict base)
          ∧ h' !! (length h + 3 * i)%nat
            = Some (ODict (dict_update base (fidelity_items g)))
          ∧ h' !! S (length h + 3 * i)
            = Some (OFeatures (group_features (length h + 3 * i) g))
          ∧ h' !! S (S (length h + 3 * i)) = Some (OData (group_data (group_rows t g))).
Proof.
  intros t Hrows. unfold observations_from_data. fold t.
  destruct (run_convert_groups experiment h (groupby t) [] h) as (h' & Hrun & Hext & Hlen & Hobj).
  { done. }
  { by apply (convertible_group_keys experiment h t (convertible experiment h)). }
  exists h'. split_and!.
  - rewrite Hrun. unfold groupby. by rewrite imap_fmap.
  - done.
  - by rewrite Hlen, <-groupby_keys, length_fmap.
  - intros i g Hi. apply (Hobj i g (group_rows t g)). by apply lookup_groupby.
Qed.

(** A group that the loop body converts was convertible. *)
Lemma convert_group_inr `{JsonDecoder} (experiment : Experiment) (h0 h h' : heap)
    (g : GroupKey) (d : list Row) (o : Observation) :
  registry_in h0 experiment →
  h0 `prefix_of` h →
  convert_group experiment g d h = (h', inr o) →
  convertible experiment h0 g.
Proof.
  intros Hreg Hpre Hrun.
  destruct (arms_by_name experiment !! g_arm_name g) as [arm|] eqn:Harm.
  2:{ by rewrite convert_group_unknown_arm in Hrun. }
  destruct (Hreg _ _ Harm) as [base Hbase].
  pose proof (prefix_lookup_Some _ _ _ _ Hbase Hpre) as Hbase'.
  assert (Hfid : match g_fidelities g with
                 | Some s => ∃ fd, json_loads s = Some (JObject fd)
                 | None => True
                 end).
  { destruct (g_fidelities g) as [s|] eqn:Hs; [|done].
    destruct (json_loads s) as [[fd|]|] eqn:Hj; [by eexists|exfalso..];
      revert Hrun; unfold convert_group; rewrite Harm; step;
      (erewrite bind_ok by (apply run_load_dict; by apply list_lookup_middle));
      rewrite Hs, Hj; by erewrite bind_err by reflexivity. }
  split; [|done]. exists arm, base. split_and!; [done..|].
  intros ->. by erewrite convert_group_empty_arm in Hrun.
Qed.

Lemma convert_groups_inr `{JsonDecoder} (experiment : Experiment) (h0 : heap)
    (groups : list (GroupKey * list Row)) (acc res : list Observation) (h h' : heap) :
  registry_in h0 experiment →
  h0 `prefix_of` h →
  convert_groups experiment groups acc h = (h', inr res) →
  Forall (λ gd, convertible experiment h0 gd.1) groups.
Proof.
  intros Hreg. revert acc h.
  induction groups as [|[g d] groups IH]; intros acc h Hpre Hrun; [done|].
  cbn [convert_groups] in Hrun. unfold mbind, M_bind in Hrun.
  pose proof (convert_group_extends experiment h g d) as Hext.
  destruct (convert_group experiment g d h) as [h1 [e|o]] eqn:Hg; [done|].
  constructor.
  - by eapply convert_group_inr.
  - eapply IH; [|exact Hrun]. by etrans.
Qed.

(** The call returns exactly when every group is convertible. *)
Lemma observations_from_data_returns `{JsonDecoder} `{GroupOrder}
    (experiment : Experiment) (data_ : Data) (h : heap) :
  let t := df data_ in
  registry_in h experiment →
  (∃ h' obs, observations_from_data experiment data_ h = (h', inr obs))
  ↔ (∀ r, r ∈ rows t → convertible experiment h (row_key (columns t) r)).
Proof.
  intros t Hreg. split.
  - intros (h' & obs & Hret) r Hr.
    pose proof (convert_groups_inr experiment h (groupby t) [] obs h h' Hreg
                  ltac:(done) Hret) as Hall.
    apply (Forall_fmap fst (convertible experiment h)) in Hall.
    rewrite groupby_keys in Hall. rewrite Forall_forall in Hall.
    apply Hall, elem_of_group_keys. eauto.
  - intros Hrows.
    destruct (run_observations_from_data experiment data_ h Hrows) as (h' & Hrun & _).
    by eexists _, _.
Qed.

(** What a returning call has built *)
Lemma observations_from_data_inr `{JsonDecoder} `{GroupOrder}
    (experiment : Experiment) (data_ : Data) (h h' : heap) (obs : list Observation) :
  let t := df data_ in
  registry_in h experiment →
  observations_from_data experiment data_ h = (h', inr obs) →
  obs = imap (λ i g, group_observation (length h + 3 * i) g) (group_keys t)
  ∧ h `prefix_of` h'
  ∧ length h' = (length h + 3 * length (group_keys t))%nat
  ∧ ∀ i g, group_keys t !! i = Some g →
      ∃ arm base,
        arms_by_name experiment !! g_arm_name g = Some arm
        ∧ h !! arm_parameters arm = Some (ODict base)
        ∧ h' !! (length h + 3 * i)%nat
          = Some (ODict (dict_update base (fidelity_items g)))
        ∧ h' !! S (length h + 3 * i)
          = Some (OFeatures (group_features (length h + 3 * i) g))
        ∧ h' !! S (S (length h + 3 * i)) = Some (OData (group_data (group_rows t g))).
Proof.
  intros t Hreg Hret.
  assert (Hrows : ∀ r, r ∈ rows t → convertible experiment h (row_key (columns t) r)).
  { apply (observations_from_data_returns experiment data_ h Hreg). by eexists _, _. }
  destruct (run_observations_from_data experiment data_ h Hrows)
    as (h0 & Hrun & Hext & Hlen & Hobj). fold t in Hrun, Hlen, Hobj.
  rewrite Hrun in Hret. by injection Hret as <- <-.
Qed.


(** C5. [observations_from_data] returns when every group is convertible,
    and whenever it returns, the parameters of each group's Feature Point
    are the arm's parameters with every entry of the group's decoded
    [fidelities] mapping written over them: a key of the mapping has the
    fidelity value, any other key the arm's value.  Without a [fidelities]
    column the parameters are the arm's.  The arm's own mapping still holds
    its base values. *)
Theorem fidelities_override_arm_parameters `{JsonDecoder} `{GroupOrder}
    (experiment : Experiment) (data_ : Data) (h : heap) :
  let t := df data_ in
  registry_in h experiment →
  ((∀ r, r ∈ rows t → convertible experiment h (row_key (columns t) r)) →
   ∃ h' obs, observations_from_data experiment data_ h = (h', inr obs))
  ∧ ∀ h' obs,
      observations_from_data experiment data_ h = (h', inr obs) →
      Forall2 (λ g o,
        ∃ arm base f p,
          arms_by_name experiment !! g_arm_name g = Some arm
          ∧ h !! arm_parameters arm = Some (ODict base)
          ∧ h' !! arm_parameters arm = Some (ODict base)
          ∧ h' !! features o = Some (OFeatures f)
          ∧ h' !! parameters f = Some (ODict p)
          ∧ (∀ s fd, g_fidelities g = Some s → json_loads s = Some (JObject fd) →
               ∀ k, dict_get p k =
                      match dict_get fd k with
                      | Some v => Some v
                      | None => dict_get base k
                      end)
          ∧ (g_fidelities g = None → p = base))
        (group_keys t) obs.
Proof.
  intros t Hreg.
  split; [by apply observations_from_data_returns|].
  intros h' obs Hret.
  destruct (observations_from_data_inr experiment data_ h h' obs Hreg Hret)
    as (-> & Hext & Hlen & Hobj). fold t in Hlen, Hobj |- *.
  apply Forall2_same_length_lookup_2; [by rewrite length_imap|].
  intros i g o Hg. rewrite list_lookup_imap, Hg. intros [= <-].
  destruct (Hobj i g Hg) as (arm & base & Harm & Hbase & Hp & Hf & _).
  exists arm, base, (group_features (length h + 3 * i) g),
    (dict_update base (fidelity_items g)).
  split_and!; [done | done | by eapply prefix_lookup_Some | done | done | |].
  - intros s fd Hs Hfd k. unfold fidelity_items. rewrite Hs, Hfd.
    apply dict_get_update. by eapply json_loads_wf.
  - intros Hnone. unfold fidelity_items. by rewrite Hnone.
Qed.


(** C10. [observations_from_data] changes no object that existed before the
    call, whether it returns or raises; in particular every arm's mapping
    keeps its items.  Whenever it returns, the [parameters] of each
    Observation's Feature Point is a dict allocated by the call, a different
    one for each Observation; so assigning to a key of one of them changes
    neither an object that existed before the call nor the Feature Point or
    the [parameters] of another Observation. *)
Theorem observations_from_data_keeps_registry `{JsonDecoder} `{GroupOrder}
    (experiment : Experiment) (data_ : Data) (h : heap) :
  h `prefix_of` (observations_from_data experiment data_ h).1
  ∧ (∀ name arm base,
       arms_by_name experiment !! name = Some arm →
       h !! arm_parameters arm = Some (ODict base) →
       (observations_from_data experiment data_ h).1 !! arm_parameters arm
       = Some (ODict base))
  ∧ (registry_in h experiment →
     ∀ h' obs,
       observations_from_data experiment data_ h = (h', inr obs) →
       ∀ i o, obs !! i = Some o →
         ∃ f p,
           h' !! features o = Some (OFeatures f)
           ∧ h' !! parameters f = Some (ODict p)
           ∧ h !! parameters f = None
           ∧ (∀ j o' f', i ≠ j → obs !! j = Some o' →
                h' !! features o' = Some (OFeatures f') →
                parameters f' ≠ parameters f)
           ∧ ∀ k v,
               ∃ h'',
                 setitem (parameters f) k v h' = (h'', inr tt)
                 ∧ h `prefix_of` h''
                 ∧ ∀ j o' f', i ≠ j → obs !! j = Some o' →
                     h' !! features o' = Some (OFeatures f') →
                     h'' !! features o' = Some (OFeatures f')
                     ∧ h'' !! parameters f' = h' !! parameters f').
Proof.
  set (t := df data_).
  pose proof (convert_groups_extends experiment (groupby t) [] h) as Hpre.
  split; [exact Hpre|]. split.
  { intros name arm base _ Hbase. by eapply prefix_lookup_Some. }
  intros Hreg h' obs Hret.
  destruct (observations_from_data_inr experiment data_ h h' obs Hreg Hret)
    as (-> & Hext & Hlen & Hobj). fold t in Hlen, Hobj |- *.
  intros i o (g & Hg & Ho)%list_lookup_imap_Some. cbv beta in Ho. subst o.
  destruct (Hobj i g Hg) as (arm & base & _ & _ & Hp & Hf & Hd).
  assert (Hother : ∀ j o' f', i ≠ j →
            imap (λ i g, group_observation (length h + 3 * i) g) (group_keys t) !! j
            = Some o' →
            h' !! features o' = Some (OFeatures f') →
            features o' = S (length h + 3 * j) ∧ parameters f' = (length h + 3 * j)%nat).
  { intros j o' f' Hij (g' & Hg' & Ho')%list_lookup_imap_Some Hf'.
    cbv beta in Ho'. subst o'.
    destruct (Hobj j g' Hg') as (_ & _ & _ & _ & _ & Hf'' & _).
    cbn [features group_observation] in Hf'. rewrite Hf'' in Hf'.
    by injection Hf' as <-. }
  eexists _, _. split; [exact Hf|]. split; [exact Hp|]. split_and!.
  - apply lookup_ge_None_2. simpl. lia.
  - intros j o' f' Hij Ho' Hf'. destruct (Hother j o' f' Hij Ho' Hf') as [_ ->].
    simpl. lia.
  - intros k v. eexists. split; [by apply run_setitem|]. split.
    + destruct Hext as [ext ->]. simpl.
      rewrite insert_app_r_alt by lia. by apply prefix_app_r.
    + intros j o' f' Hij Ho' Hf'. destruct (Hother j o' f' Hij Ho' Hf') as [Hfo Hfp].
      simpl. rewrite !list_lookup_insert_ne; [done| |]; lia.
Qed.

(** C6, what the code does for an arm without parameters: the first group
    that the loop reaches stops the call with the [TypeError] of the
    constructor, also when the fidelities would supply parameters. *)
Lemma empty_arm_raises `{JsonDecoder} `{GroupOrder}
    (experiment : Experiment) (data_ : Data) (h : heap) :
  let t := df data_ in
  rows t ≠ [] →
  (∀ r, r ∈ rows t →
     (∃ arm, arms_by_name experiment !! col_arm_name r = Some arm
             ∧ h !! arm_parameters arm = Some (ODict []))
     ∧ (has_fidelities (columns t) = true →
        ∃ fd, json_loads (col_fidelities r) = Some (JObject fd))) →
  ∃ h',
    observations_from_data experiment data_ h =
      (h', inl (TypeError
                  "__init__() missing 1 required positional argument: 'parameters'")).
Proof.
  intros t Hne Hrows. unfold observations_from_data. fold t.
  destruct (groupby t) as [|[g d] groups] eqn:Hgroups.
  { apply (f_equal (fmap fst)) in Hgroups. rewrite groupby_keys in Hgroups.
    destruct (rows t) as [|r rs] eqn:Hr; [done|].
    assert (row_key (columns t) r ∈ group_keys t) as Hin.
    { apply elem_of_group_keys. exists r. rewrite Hr. split; [left | done]. }
    rewrite Hgroups in Hin. by apply elem_of_nil in Hin. }
  assert (g ∈ group_keys t) as (r & Hr & <-)%elem_of_group_keys.
  { rewrite <-groupby_keys, Hgroups. left. }
  destruct (Hrows r Hr) as ((arm & Harm & Hbase) & Hfid).
  eexists. cbn [convert_groups].
  erewrite bind_err; [done|].
  eapply convert_group_empty_arm; [done..|].
  simpl. unfold cell. destruct (has_fidelities (columns t)); [by apply Hfid | done].
Qed.

(** ** separate_observations *)

Lemma run_deepcopy_features (h : heap) (l : loc) (f : ObservationFeatures) (d : dict) :
  h !! l = Some (OFeatures f) →
  h !! parameters f = Some (ODict d) →
  deepcopy_features l h =
    (h ++ [ODict d; OFeatures (set_parameters (length h) f)], inr (S (length h))).
Proof.
  intros Hl Hd. unfold deepcopy_features.
  do 3 step.
  unfold alloc. rewrite <-(assoc_L (++)), length_app. simpl.
  by replace (length h + 1)%nat with (S (length h)) by lia.
Qed.

Lemma run_deepcopy_data (h : heap) (l : loc) (dt : ObservationData) :
  h !! l = Some (OData dt) →
  deepcopy_data l h = (h ++ [OData dt], inr (length h)).
Proof.
  intros Hl. unfold deepcopy_data. by step.
Qed.

Lemma run_copy_all_features (h0 : heap) (observations : list Observation) (h : heap) :
  h0 `prefix_of` h →
  Forall (observation_in h0) observations →
  ∃ h',
    comprehension (λ obs, deepcopy_features (features obs)) observations h =
      (h', inr (imap (λ i _, S (length h + 2 * i)) observations))
    ∧ h `prefix_of` h'
    ∧ length h' = (length h + 2 * length observations)%nat
    ∧ ∀ i o f d, observations !! i = Some o →
        h0 !! features o = Some (OFeatures f) →
        h0 !! parameters f = Some (ODict d) →
        h' !! (length h + 2 * i)%nat = Some (ODict d)
        ∧ h' !! S (length h + 2 * i)
          = Some (OFeatures (set_parameters (length h + 2 * i) f)).
Proof.
  intros Hpre Hall. revert h Hpre.
  induction Hall as [|o observations Ho _ IH]; intros h Hpre.
  { exists h. split_and!; [done | done | simpl; lia |].
    intros i o f d. by rewrite lookup_nil. }
  destruct Ho as (f & d & dt & Hf & Hd & _).
  pose proof (run_deepcopy_features h (features o) f d
                (prefix_lookup_Some _ _ _ _ Hf Hpre)
                (prefix_lookup_Some _ _ _ _ Hd Hpre)) as Hrun.
  set (h1 := h ++ [ODict d; OFeatures (set_parameters (length h) f)]) in *.
  assert (Hlen1 : length h1 = (length h + 2)%nat)
    by (unfold h1; rewrite length_app; simpl; lia).
  destruct (IH h1) as (h' & Hrest & Hext & Hlen & Hobj).
  { etrans; [exact Hpre | by apply prefix_app_r]. }
  exists h'. split_and!.
  - cbn [comprehension]. step with Hrun.
    step with Hrest. unfold mret, M_ret. do 2 f_equal.
    cbn [imap]. f_equal; [f_equal; lia|].
    apply imap_ext. intros i ? _. simpl. f_equal. lia.
  - etrans; [by apply prefix_app_r | exact Hext].
  - cbn [length]. lia.
  - intros [|i] o' f' d' Hi Hf' Hd'; simpl in Hi.
    + injection Hi as <-. assert (f' = f) as -> by congruence.
      assert (d' = d) as -> by congruence.
      replace (length h + 2 * 0)%nat with (length h) by lia.
      split; (eapply prefix_lookup_Some; [|exact Hext]); unfold h1.
      * by apply list_lookup_middle.
      * rewrite lookup_app_r by lia.
        by replace (S (length h) - length h)%nat with 1%nat by lia.
    + replace (length h + 2 * S i)%nat with (length h1 + 2 * i)%nat by lia.
      by apply (Hobj i o').
Qed.

Lemma run_copy_all_data (h0 : heap) (observations : list Observation) (h : heap) :
  h0 `prefix_of` h →
  Forall (observation_in h0) observations →
  ∃ h',
    comprehension (λ obs, deepcopy_data (data obs)) observations h =
      (h', inr (imap (λ i _, (length h + i)%nat) observations))
    ∧ h `prefix_of` h'
    ∧ ∀ i o dt, observations !! i = Some o →
        h0 !! data o = Some (OData dt) →
        h' !! (length h + i)%nat = Some (OData dt).
Proof.
  intros Hpre Hall. revert h Hpre.
  induction Hall as [|o observations Ho _ IH]; intros h Hpre.
  { exists h. split_and!; [done | done |]. intros i o dt. by rewrite lookup_nil. }
  destruct Ho as (f & d & dt & _ & _ & Hdt).
  pose proof (run_deepcopy_data h (data o) dt (prefix_lookup_Some _ _ _ _ Hdt Hpre))
    as Hrun.
  destruct (IH (h ++ [OData dt])) as (h' & Hrest & Hext & Hobj).
  { etrans; [exact Hpre | by apply prefix_app_r]. }
  exists h'. split_and!.
  - cbn [comprehension]. step with Hrun.
    step with Hrest. unfold mret, M_ret. do 2 f_equal.
    cbn [imap]. f_equal; [lia|].
    apply imap_ext. intros i ? _. simpl. rewrite length_app. simpl. lia.
  - etrans; [by apply prefix_app_r | exact Hext].
  - intros [|i] o' dt' Hi Hdt'; simpl in Hi.
    + injection Hi as <-. assert (dt' = dt) as -> by congruence.
      rewrite Nat.add_0_r. eapply prefix_lookup_Some; [|exact Hext].
      by apply list_lookup_middle.
    + specialize (Hobj i o' dt' Hi Hdt'). rewrite length_app in Hobj. simpl in Hobj.
      by replace (length h + S i)%nat with (length h + 1 + i)%nat by lia.
Qed.

(** C7. Without the copy flag [separate_observations] returns, in the order
    of the input, the very [features] and [data] objects of the
    Observations and touches nothing.  With the flag it returns two lists of
    the length of the input whose i-th elements are new objects with the
    contents of the i-th Observation's [features] and [data]; the copy of a
    Feature Point has a new dict with the items of the original's
    [parameters]; the input's objects are unchanged, assigning to a key of a
    copy's [parameters] changes no object of the input, and assigning to a
    key of an input's [parameters] changes no copy. *)
Theorem separate_observations_copy_flag (observations : list Observation) (h : heap) :
  separate_observations observations false h
  = (h, inr (features <$> observations, data <$> observations))
  ∧ (Forall (observation_in h) observations →
     ∃ h' fs ds,
       separate_observations observations true h = (h', inr (fs, ds))
       ∧ length fs = length observations
       ∧ length ds = length observations
       ∧ h `prefix_of` h'
       ∧ ∀ i o f d dt, observations !! i = Some o →
           h !! features o = Some (OFeatures f) →
           h !! parameters f = Some (ODict d) →
           h !! data o = Some (OData dt) →
           ∃ fl dl f',
             fs !! i = Some fl ∧ ds !! i = Some dl
             ∧ h !! fl = None ∧ h !! dl = None ∧ h !! parameters f' = None
             ∧ h' !! fl = Some (OFeatures f')
             ∧ h' !! parameters f' = Some (ODict d)
             ∧ trial_index f' = trial_index f ∧ start_time f' = start_time f
             ∧ end_time f' = end_time f ∧ random_split f' = random_split f
             ∧ h' !! dl = Some (OData dt)
             ∧ (∀ k v, ∃ h'',
                  setitem (parameters f') k v h' = (h'', inr tt)
                  ∧ h `prefix_of` h'')
             ∧ (∀ k v, ∃ h'',
                  setitem (parameters f) k v h' = (h'', inr tt)
                  ∧ h'' !! parameters f = Some (ODict (dict_setitem d k v))
                  ∧ h'' !! fl = Some (OFeatures f')
                  ∧ h'' !! parameters f' = Some (ODict d)
                  ∧ h'' !! dl = Some (OData dt))).
Proof.
  split; [done|]. intros Hall.
  destruct (run_copy_all_features h observations h) as (h1 & Hrun1 & Hext1 & Hlen1 & Hobj1);
    [done..|].
  destruct (run_copy_all_data h observations h1) as (h2 & Hrun2 & Hext2 & Hobj2);
    [done..|].
  eexists h2, _, _. split.
  { unfold separate_observations.
    step with Hrun1. by step with Hrun2. }
  split; [by rewrite length_imap|]. split; [by rewrite length_imap|].
  split; [by etrans|].
  intros i o f d dt Hi Hf Hd Hdt.
  destruct (Hobj1 i o f d Hi Hf Hd) as [Hd' Hf'].
  pose proof (Hobj2 i o dt Hi Hdt) as Hdt'.
  pose proof (lookup_lt_Some _ _ _ Hd) as Hlt.
  exists (S (length h + 2 * i)), (length h1 + i)%nat,
    (set_parameters (length h + 2 * i) f).
  assert (Hd2 : h2 !! (length h + 2 * i)%nat = Some (ODict d))
    by by eapply prefix_lookup_Some.
  assert (Hf2 : h2 !! S (length h + 2 * i)
                = Some (OFeatures (set_parameters (length h + 2 * i) f)))
    by by eapply prefix_lookup_Some.
  assert (Hpre2 : h `prefix_of` h2) by by etrans.
  assert (Hd0 : h2 !! parameters f = Some (ODict d))
    by by eapply prefix_lookup_Some.
  split_and!; try done.
  - by rewrite list_lookup_imap, Hi.
  - by rewrite list_lookup_imap, Hi.
  - apply lookup_ge_None_2. lia.
  - apply lookup_ge_None_2. lia.
  - apply lookup_ge_None_2. simpl. lia.
  - intros k v. eexists. split; [by apply run_setitem|].
    destruct Hpre2 as [ext ->].
    simpl. rewrite insert_app_r_alt by lia. by apply prefix_app_r.
  - intros k v. eexists. split; [by apply run_setitem|].
    split_and!.
    + by eapply lookup_store_eq.
    + rewrite list_lookup_insert_ne by lia. done.
    + simpl. rewrite list_lookup_insert_ne by lia. done.
    + rewrite list_lookup_insert_ne by lia. done.
Qed.

(** ** Running the definitions *)

Lemma read_members_wf (fuel : nat) (s : string) (acc d : dict) :
  read_members fuel s acc = Some d → dict_wf acc → dict_wf d.
Proof.
  revert s acc. induction fuel as [|fuel IH]; intros s acc; [done|].
  cbn [read_members]. intros Hread Hwf.
  destruct (skip_ws s) as [|c rest]; [done|].
  destruct (decide (c = dq)); [|done].
  destruct (read_chars rest) as [[k rest1]|]; [|done]. cbn in Hread.
  destruct (skip_ws rest1) as [|c1 rest2]; [done|].
  destruct (decide (c1 = ":"%char)) as [->|Hne].
  2:{ destruct c1 as [[] [] [] [] [] [] [] []]; done. }
  destruct (read_value (skip_ws rest2)) as [[v rest3]|]; [|done]. cbn in Hread.
  destruct (skip_ws rest3) as [|c3 rest4]; [done|].
  destruct (decide (c3 = ","%char)) as [->|Hne1].
  { eapply IH; [exact Hread | by apply dict_setitem_wf]. }
  destruct (decide (c3 = "}"%char)) as [->|Hne2].
  { destruct (decide (skip_ws rest4 = "")); [|done].
    injection Hread as <-. by apply dict_setitem_wf. }
  destruct c3 as [[] [] [] [] [] [] [] []]; done.
Qed.

Global Instance fragment_decoder : JsonDecoder.
Proof.
  refine {| json_loads := fragment_loads |}.
  intros s d. unfold fragment_loads.
  destruct (skip_ws s) as [|c rest]; [done|].
  destruct (decide (c = "["%char)) as [->|Hne0].
  { destruct (skip_ws rest) as [|c' rest']; [done|].
    destruct (decide (c' = "]"%char)) as [->|Hne].
    - by destruct (decide (skip_ws rest' = "")).
    - destruct c' as [[] [] [] [] [] [] [] []]; done. }
  destruct (decide (c = "{"%char)) as [->|Hne].
  2:{ destruct c as [[] [] [] [] [] [] [] []]; done. }
  destruct (skip_ws rest) as [|c' rest'] eqn:Hrest.
  - destruct (read_members (String.length s) rest []) eqn:Hread; [|done].
    intros [= <-]. eapply read_members_wf; [exact Hread | apply NoDup_nil_2].
  - destruct (decide (c' = "}"%char)) as [->|Hne].
    + destruct (decide (skip_ws rest' = "")); [|done]. intros [= <-]. apply NoDup_nil_2.
    + assert (JObject <$> read_members (String.length s) rest [] = Some (JObject d)
              → dict_wf d) as Hgo.
      { destruct (read_members (String.length s) rest []) eqn:Hread; [|done].
        intros [= <-]. eapply read_members_wf; [exact Hread | apply NoDup_nil_2]. }
      destruct c' as [[] [] [] [] [] [] [] []]; done.
Defined.

(** The decoder on four texts *)
Example fragment_loads_examples :
  json_loads x_is_5 = Some (JObject [("x", VInt 5)])
  ∧ json_loads "{}" = Some (JObject [])
  ∧ json_loads "[]" = Some JOther
  ∧ json_loads "not json" = None.
Proof. done. Qed.

(** The end-to-end example of the spec: one Observation with parameters
    [{"x": 1, "y": 2}], metric names [m1, m2], means [3.0, 4.0] and covariance
    [[0.25, 0], [0, 1.0]]. *)
Example end_to_end :
  observations_from_data example_experiment example_data example_store
  = ([ODict [("x", VInt 1); ("y", VInt 2)];
      ODict [("x", VInt 1); ("y", VInt 2)];
      OFeatures (no_context 1%nat);
      OData {| metric_names := ["m1"; "m2"];
               means := {| shape := [2%nat]; flat := [3%float; 4%float] |};
               covariance := {| shape := [2%nat; 2%nat];
                                flat := [0.25%float; 0%float; 0%float; 1%float] |} |}],
     inr [{| features := 2%nat; data := 3%nat; arm_name := Some "arm1" |}]).
Proof. vm_compute. reflexivity. Qed.

(** The Feature Point gets [x = 5] and the arm keeps [x = 1]. *)
Example fidelity_example :
  observations_from_data example_experiment fidelity_data fidelity_store
  = ([ODict [("x", VInt 1)];
      ODict [("x", VInt 5)];
      OFeatures (no_context 1%nat);
      OData {| metric_names := ["m1"];
               means := {| shape := [1%nat]; flat := [3%float] |};
               covariance := {| shape := [1%nat; 1%nat]; flat := [0.25%float] |} |}],
     inr [{| features := 2%nat; data := 3%nat; arm_name := Some "arm1" |}]).
Proof. vm_compute. reflexivity. Qed.

(** An arm without parameters: with or without fidelities the call raises. *)
Example empty_arm_example :
  observations_from_data example_experiment example_data empty_store
  = ([ODict []; ODict []],
     inl (TypeError "__init__() missing 1 required positional argument: 'parameters'")).
Proof. vm_compute. reflexivity. Qed.

Example empty_arm_fidelity_example :
  observations_from_data example_experiment fidelity_data empty_store
  = ([ODict []; ODict [("x", VInt 5)]],
     inl (TypeError "__init__() missing 1 required positional argument: 'parameters'")).
Proof. vm_compute. reflexivity. Qed.

(** Two groups of one arm: each Observation has a dict of its own, and the
    arm's mapping is as it was. *)
Example two_groups_example :
  observations_from_data example_experiment two_fidelities_data fidelity_store
  = ([ODict [("x", VInt 1)];
      ODict [("x", VInt 5)];
      OFeatures (no_context 1%nat);
      OData {| metric_names := ["m1"];
               means := {| shape := [1%nat]; flat := [3%float] |};
               covariance := {| shape := [1%nat; 1%nat]; flat := [0.25%float] |} |};
      ODict [("x", VInt 1)];
      OFeatures (no_context 4%nat);
      OData {| metric_names := ["m1"];
               means := {| shape := [1%nat]; flat := [4%float] |};
               covariance := {| shape := [1%nat; 1%nat]; flat := [1%float] |} |}],
     inr [{| features := 2%nat; data := 3%nat; arm_name := Some "arm1" |};
          {| features := 5%nat; data := 6%nat; arm_name := Some "arm1" |}]).
Proof. vm_compute. reflexivity. Qed.

(** The second group names an arm that is not registered: the call raises
    [KeyError] and returns nothing, though the first group was converted. *)
Example unknown_arm_example :
  observations_from_data example_experiment ghost_data example_store
  = ([ODict [("x", VInt 1); ("y", VInt 2)];
      ODict [("x", VInt 1); ("y", VInt 2)];
      OFeatures (no_context 1%nat);
      OData {| metric_names := ["m1"];
               means := {| shape := [1%nat]; flat := [3%float] |};
               covariance := {| shape := [1%nat; 1%nat]; flat := [0.25%float] |} |}],
     inl (KeyError "ghost")).
Proof. vm_compute. reflexivity. Qed.

(** A [fidelities] cell that decodes to an array has no [items]. *)
Example array_fidelities_example :
  observations_from_data example_experiment array_fidelities_data fidelity_store
  = ([ODict [("x", VInt 1)]; ODict [("x", VInt 1)]],
     inl (AttributeError "object has no attribute 'items'")).
Proof. vm_compute. reflexivity. Qed.

(** The rows of [raw_rows] with an arm name form one Observation of two
    metrics; the row without one is in none. *)
Example raw_rows_example :
  observations_from_data example_experiment (grouped_table (example_columns false) raw_rows)
    example_store
  = ([ODict [("x", VInt 1); ("y", VInt 2)];
      ODict [("x", VInt 1); ("y", VInt 2)];
      OFeatures (no_context 1%nat);
      OData {| metric_names := ["m1"; "m2"];
               means := {| shape := [2%nat]; flat := [3%float; 4%float] |};
               covariance := {| shape := [2%nat; 2%nat];
                                flat := [0.25%float; 0%float; 0%float; 1%float] |} |}],
     inr [{| features := 2%nat; data := 3%nat; arm_name := Some "arm1" |}]).
Proof. vm_compute. reflexivity. Qed.

(** With [from_arm] the Feature Point gets a mapping of its own: merging
    [{"x": 5}] into it leaves the arm's mapping at [{"x": 1}]. *)
Example from_arm_example :
  let other := {| parameters := 1%nat; trial_index := None; start_time := None;
                  end_time := None; random_split := None |} in
  (fp ← from_arm arm1 (Some 3) None None None;
   update_features fp 2%nat;;
   f ← load_features fp;
   d ← load_dict (arm_parameters arm1);
   d' ← load_dict (parameters f);
   mret (f, d, d')) [ODict [("x", VInt 1)]; ODict [("x", VInt 5)]; OFeatures other]
  = ([ODict [("x", VInt 1)]; ODict [("x", VInt 5)]; OFeatures other;
      ODict [("x", VInt 5)];
      OFeatures {| parameters := 3%nat; trial_index := Some 3; start_time := None;
                   end_time := None; random_split := None |}],
     inr ({| parameters := 3%nat; trial_index := Some 3; start_time := None;
             end_time := None; random_split := None |},
          [("x", VInt 1)], [("x", VInt 5)])).
Proof. reflexivity. Qed.

Lemma dict_wf_check (d : dict) : bool_decide (NoDup d.*1) = true → dict_wf d.
Proof. apply bool_decide_eq_true_1. Qed.

Lemma example_rows_convertible (fid : bool) (ds : list Row) (h : heap) (base : dict) :
  h !! 0%nat = Some (ODict base) → base ≠ [] →
  Forall (λ r, col_arm_name r = "arm1"
               ∧ (fid = true → ∃ fd, json_loads (col_fidelities r) = Some (JObject fd))) ds →
  ∀ r, r ∈ ds → convertible example_experiment h (row_key (example_columns fid) r).
Proof.
  intros Hbase Hne Hall r Hr.
  rewrite Forall_forall in Hall. destruct (Hall r Hr) as [Harm Hfid].
  split.
  - exists arm1, base. simpl. rewrite Harm. split_and!; [|done..].
    apply lookup_singleton_eq.
  - simpl. unfold cell. destruct fid; [by apply Hfid | done].
Qed.

Lemma example_registry_in (base : dict) :
  registry_in [ODict base] example_experiment.
Proof.
  intros name arm Harm. simpl in Harm.
  apply lookup_singleton_Some in Harm as [<- <-]. by eexists.
Qed.


(** C5 at the fidelity example: [x] is 5 in the Feature Point and 1 in the
    arm. *)
Lemma fidelities_override_arm_parameters_witness :
  registry_in fidelity_store example_experiment
  ∧ ∃ h' o f p,
      observations_from_data example_experiment fidelity_data fidelity_store
      = (h', inr [o])
      ∧ h' !! features o = Some (OFeatures f)
      ∧ h' !! parameters f = Some (ODict p)
      ∧ dict_get p "x" = Some (VInt 5)
      ∧ h' !! arm_parameters arm1 = Some (ODict [("x", VInt 1)]).
Proof.
  pose proof (example_registry_in [("x", VInt 1)]) as Hreg.
  split; [exact Hreg|].
  destruct (fidelities_override_arm_parameters example_experiment fidelity_data
              fidelity_store Hreg) as (Hret & Hobs).
  destruct Hret as (h' & obs & Hrun).
  { apply (example_rows_convertible true) with (base := [("x", VInt 1)]);
      [done | done |].
    apply Forall_cons. split; [|by apply Forall_nil_2].
    split; [done|]. intros _. by eexists. }
  pose proof (Hobs h' obs Hrun) as Hall.
  change (group_keys (df fidelity_data))
    with [row_key (example_columns true)
            (example_row "arm1" "m1" 3%float 0.5%float x_is_5)] in Hall.
  apply Forall2_cons_inv_l in Hall as (o & obs' & Ho & Hnil & ->).
  apply Forall2_nil_inv_l in Hnil as ->.
  destruct Ho as (arm & base & f & p & Harm & Hbase & Hbase' & Hf & Hp & Hget & _).
  exists h', o, f, p. split_and!; try done.
  - rewrite (Hget x_is_5 [("x", VInt 5)] eq_refl eq_refl "x"). reflexivity.
  - assert (arm = arm1) as ->; [|by injection Hbase as <-].
    simpl in Harm. rewrite lookup_singleton_eq in Harm. by injection Harm.
Defined.

(** C2 at the arm of the examples: the Feature Point's mapping is a new
    dict with [x = 1], and the trial index is the supplied one. *)
Lemma from_arm_copies_parameters_witness :
  fidelity_store !! arm_parameters arm1 = Some (ODict [("x", VInt 1)])
  ∧ ∃ h' fp f,
      from_arm arm1 (Some 3) None None None fidelity_store = (h', inr fp)
      ∧ h' !! fp = Some (OFeatures f)
      ∧ parameters f ≠ arm_parameters arm1
      ∧ h' !! parameters f = Some (ODict [("x", VInt 1)])
      ∧ trial_index f = Some 3 ∧ start_time f = None.
Proof.
  split; [reflexivity|].
  destruct (from_arm_copies_parameters fidelity_store arm1 [("x", VInt 1)]
              (Some 3) None None None eq_refl)
    as (h' & fp & f & Hrun & _ & Hfp & Hne & _ & Hp & Hti & Hst & _).
  by exists h', fp, f.
Defined.



(** C6 at the registry [{"arm1": {}}]: the call raises [TypeError]. *)
Lemma empty_arm_raises_witness :
  rows (df example_data) ≠ []
  ∧ ∃ h',
      observations_from_data example_experiment example_data empty_store
      = (h', inl (TypeError
                    "__init__() missing 1 required positional argument: 'parameters'")).
Proof.
  split; [done|].
  apply (empty_arm_raises example_experiment example_data empty_store); [done|].
  intros r Hr. split; [|done].
  exists arm1. split; [|done].
  simpl in Hr. apply elem_of_cons in Hr as [->|Hr]; [by apply lookup_singleton_eq|].
  apply list_elem_of_singleton in Hr as ->. by apply lookup_singleton_eq.
Defined.

(** C3 at [merge_store]: B is merged into A. *)
Lemma update_features_merges_witness :
  dict_wf [("y", VInt 7); ("z", VInt 9)]
  ∧ ∃ h' fa' da',
      update_features 2%nat 3%nat merge_store = (h', inr 2%nat)
      ∧ h' !! 2%nat = Some (OFeatures fa')
      ∧ trial_index fa' = Some 4 ∧ start_time fa' = Some 10
      ∧ h' !! 0%nat = Some (ODict da')
      ∧ dict_get da' "x" = Some (VInt 1)
      ∧ dict_get da' "y" = Some (VInt 7)
      ∧ dict_get da' "z" = Some (VInt 9).
Proof.
  assert (Hwf : dict_wf [("y", VInt 7); ("z", VInt 9)]) by by apply dict_wf_check.
  split; [exact Hwf|].
  destruct (update_features_merges merge_store 2%nat 3%nat _ _ _ _
              eq_refl eq_refl eq_refl eq_refl Hwf)
    as (h' & fa' & da' & Hrun & Ha & _ & Hd & Hget & _ & _ & Hti & Hst & _).
  exists h', fa', da'. split_and!; [done | done | done | done | done | ..];
    by rewrite Hget.
Defined.

(** C8 at [hash_store], with the sample builtins. *)
Lemma hash_ignores_insertion_order_witness :
  (dict_wf [("a", VInt 1); ("b", VInt 2)]
   ∧ [("a", VInt 1); ("b", VInt 2)] ≡ₚ [("b", VInt 2); ("a", VInt 1)])
  ∧ ∃ z, @Features_hash sample_builtins 2%nat hash_store = (hash_store, inr z)
         ∧ @Features_hash sample_builtins 3%nat hash_store = (hash_store, inr z)
         ∧ @Features_eq sample_builtins 2%nat 3%nat hash_store = (hash_store, inr true).
Proof.
  assert (Hwf : dict_wf [("a", VInt 1); ("b", VInt 2)]) by by apply dict_wf_check.
  assert (Hperm : [("a", VInt 1); ("b", VInt 2)] ≡ₚ [("b", VInt 2); ("a", VInt 1)])
    by apply perm_swap.
  split; [done|].
  exact (@hash_ignores_insertion_order sample_builtins hash_store 2%nat 3%nat _ _ _ _
           eq_refl eq_refl eq_refl eq_refl Hwf Hperm eq_refl eq_refl eq_refl eq_refl).
Defined.

(** Both mappings of [hash_store] serialize as [{"a": 1, "b": 2}]. *)
Example hash_example :
  @Features_hash sample_builtins 2%nat hash_store
  = (hash_store, inr (Z.of_nat (String.length ("{" +:+ String dq ("a" +:+ String dq
       (": 1, " +:+ String dq ("b" +:+ String dq ": 2}"))))))).
Proof. vm_compute. reflexivity. Qed.

(** Without the flag the assignment reaches the input's mapping; with it,
    only the copy's. *)
Example separate_observations_shares :
  (assign_through_result false split_store).2
  = inr ([1%nat], [2%nat], [("x", VInt 5)], [("x", VInt 5)]).
Proof. vm_compute. reflexivity. Qed.

Example separate_observations_copies :
  (assign_through_result true split_store).2
  = inr ([4%nat], [5%nat], [("x", VInt 1)], [("x", VInt 5)]).
Proof. vm_compute. reflexivity. Qed.

(** C10 at the table of two groups: both Observations come back, each with
    a dict that the store did not hold before the call. *)
Lemma observations_from_data_keeps_registry_witness :
  registry_in fidelity_store example_experiment
  ∧ ∃ h' obs,
      observations_from_data example_experiment two_fidelities_data fidelity_store
      = (h', inr obs)
      ∧ length obs = 2%nat
      ∧ h' !! arm_parameters arm1 = Some (ODict [("x", VInt 1)])
      ∧ ∀ i o, obs !! i = Some o →
          ∃ f p, h' !! features o = Some (OFeatures f)
                 ∧ h' !! parameters f = Some (ODict p)
                 ∧ fidelity_store !! parameters f = None.
Proof.
  pose proof (example_registry_in [("x", VInt 1)]) as Hreg.
  split; [exact Hreg|].
  destruct (observations_from_data_keeps_registry example_experiment
              two_fidelities_data fidelity_store) as (_ & Harm & Hobs).
  destruct (observations_from_data example_experiment two_fidelities_data
              fidelity_store) as [h' [e|obs]] eqn:Hrun; [by vm_compute in Hrun|].
  exists h', obs. split; [done|]. split_and!.
  - vm_compute in Hrun. by injection Hrun as <- <-.
  - apply (Harm "arm1" arm1); [apply lookup_singleton_eq | done].
  - intros i o Hi.
    destruct (Hobs Hreg h' obs eq_refl i o Hi) as (f & p & Hf & Hp & Hfresh & _).
    by exists f, p.
Defined.

(** C7 at [split_store]: the copies of the one Observation are new objects. *)
Lemma separate_observations_copy_flag_witness :
  Forall (observation_in split_store) split_input
  ∧ separate_observations split_input false split_store
    = (split_store, inr ([1%nat], [2%nat]))
  ∧ ∃ h' fl dl f',
      separate_observations split_input true split_store = (h', inr ([fl], [dl]))
      ∧ split_store !! fl = None ∧ split_store !! dl = None
      ∧ h' !! fl = Some (OFeatures f')
      ∧ split_store !! parameters f' = None
      ∧ h' !! parameters f' = Some (ODict [("x", VInt 1)]).
Proof.
  assert (Hin : Forall (observation_in split_store) split_input).
  { apply Forall_cons. split; [|by apply Forall_nil_2]. by eexists _, _, _. }
  split; [exact Hin|].
  destruct (separate_observations_copy_flag split_input split_store) as [Hshare Hcopy].
  split; [exact Hshare|].
  destruct (Hcopy Hin) as (h' & fs & ds & Hrun & Hlf & Hld & _ & Hobj).
  destruct (Hobj 0%nat _ _ _ _ eq_refl eq_refl eq_refl eq_refl)
    as (fl & dl & f' & Hfl & Hdl & ? & ? & ? & ? & ? & _).
  destruct fs as [|fl' [|]]; [done| |done]. destruct ds as [|dl' [|]]; [done| |done].
  simpl in Hfl, Hdl. injection Hfl as ->. injection Hdl as ->.
  by exists h', fl, dl, f'.
Defined.

(** C4 at two metric names: shapes (2,) and (2, 2) are accepted, a [means]
    of shape (3,) is refused with the message that says so. *)
Lemma Data_init_checks_shapes_witness :
  (∃ h' l, Data_init ["m1"; "m2"] (values [3%float; 4%float])
             (np_diag (values [0.25%float; 1%float])) [] = (h', inr l))
  ∧ Data_init ["m1"; "m2"] (values [3%float; 4%float; 5%float])
      (np_diag (values [0.25%float; 1%float])) []
    = ([], inl (ValueError "Shape of means should be (2,), is (3,).")).
Proof.
  destruct (Data_init_checks_shapes [] ["m1"; "m2"] (values [3%float; 4%float])
              (np_diag (values [0.25%float; 1%float]))) as (Hiff & _).
  destruct (Data_init_checks_shapes [] ["m1"; "m2"]
              (values [3%float; 4%float; 5%float])
              (np_diag (values [0.25%float; 1%float]))) as (_ & _ & Hbad & _).
  split; [by apply Hiff | by apply Hbad].
Defined.

(** * Further properties *)

(** ** update_features: repeating, chaining, failing *)

Lemma dict_setitem_same (d : dict) (k : string) (v : value) :
  dict_get d k = Some v → dict_setitem d k v = d.
Proof.
  induction d as [|[k0 v0] d IH]; simpl; [done|].
  destruct (decide (k0 = k)) as [->|Hne]; [by intros [= ->]|].
  intros Hget. by rewrite IH.
Qed.

(** Updating with items that the dict already has changes nothing. *)
Lemma dict_update_absorb (d other : dict) :
  (∀ k v, (k, v) ∈ other → dict_get d k = Some v) → dict_update d other = d.
Proof.
  induction other as [|[k v] other IH]; intros Hall; [done|].
  rewrite dict_update_cons. simpl.
  rewrite dict_setitem_same by (apply Hall; left).
  apply IH. intros k' v' Hin. apply Hall. by right.
Qed.

Lemma dict_update_twice (d other : dict) :
  dict_wf other → dict_update (dict_update d other) other = dict_update d other.
Proof.
  intros Hwf. apply dict_update_absorb. intros k v Hin.
  by rewrite dict_get_update, (dict_get_elem other k v Hwf Hin).
Qed.

Lemma dict_update_self (d : dict) : dict_wf d → dict_update d d = d.
Proof. intros Hwf. apply dict_update_absorb. intros k v. by apply dict_get_elem. Qed.

Lemma merge_features_twice (fb fa : ObservationFeatures) :
  merge_features fb (merge_features fb fa) = merge_features fb fa.
Proof. by destruct fb as [? [] [] [] []]. Qed.

(** The store that a merge leaves *)
Lemma run_update_features (h : heap) (a b : loc) (fa fb : ObservationFeatures)
    (da db : dict) :
  h !! a = Some (OFeatures fa) →
  h !! b = Some (OFeatures fb) →
  h !! parameters fa = Some (ODict da) →
  h !! parameters fb = Some (ODict db) →
  update_features a b h =
    (<[a := OFeatures (merge_features fb fa)]>
       (<[parameters fa := ODict (dict_update da db)]> h), inr a).
Proof.
  intros Ha Hb Hda Hdb.
  assert (Hap : a ≠ parameters fa) by (intros E; rewrite <-E in Hda; congruence).
  assert (Hbp : b ≠ parameters fa) by (intros E; rewrite <-E in Hda; congruence).
  unfold update_features. do 5 step.
  apply run_copy_fields; by rewrite list_lookup_insert_ne.
Qed.

(** X1. Merging B into A a second time changes nothing: the store after one
    [update_features] is a fixed point of the same call, whether or not A
    and B are one object or share their mapping. *)
Theorem update_features_idempotent (h : heap) (a b : loc)
    (fa fb : ObservationFeatures) (da db : dict) :
  h !! a = Some (OFeatures fa) →
  h !! b = Some (OFeatures fb) →
  h !! parameters fa = Some (ODict da) →
  h !! parameters fb = Some (ODict db) →
  dict_wf db →
  ∃ h1, update_features a b h = (h1, inr a)
        ∧ update_features a b h1 = (h1, inr a).
Proof.
  intros Ha Hb Hda Hdb Hwf.
  assert (Hap : a ≠ parameters fa) by (intros E; rewrite <-E in Hda; congruence).
  assert (Hbp : b ≠ parameters fa) by (intros E; rewrite <-E in Hda; congruence).
  set (h0 := <[parameters fa := ODict (dict_update da db)]> h).
  set (h1 := <[a := OFeatures (merge_features fb fa)]> h0).
  exists h1. split; [by apply run_update_features|].
  assert (Ha1 : h1 !! a = Some (OFeatures (merge_features fb fa))).
  { apply lookup_store_eq with (OFeatures fa). unfold h0.
    by rewrite list_lookup_insert_ne. }
  assert (Hda1 : h1 !! parameters fa = Some (ODict (dict_update da db))).
  { unfold h1. rewrite list_lookup_insert_ne by done. by eapply lookup_store_eq. }
  destruct (decide (a = b)) as [<-|Hab].
  - assert (fb = fa) as -> by congruence. assert (db = da) as -> by congruence.
    rewrite merge_features_self in *. rewrite (dict_update_self da Hwf) in *.
    erewrite run_update_features; [|done..]. f_equal.
    rewrite merge_features_self, (dict_update_self da Hwf).
    by rewrite (list_insert_id h1 (parameters fa)), list_insert_id.
  - assert (Hb1 : h1 !! b = Some (OFeatures fb)).
    { unfold h1, h0. by rewrite !list_lookup_insert_ne. }
    destruct (decide (parameters fb = parameters fa)) as [Hpp|Hpp].
    + assert (db = da) as -> by (rewrite Hpp in Hdb; congruence).
      rewrite (dict_update_self da Hwf) in *.
      erewrite (run_update_features h1 a b _ fb _ da); [|done..|by rewrite Hpp].
      f_equal. cbn [parameters merge_features].
      rewrite merge_features_twice, (dict_update_self da Hwf).
      by rewrite (list_insert_id h1 (parameters fa)), list_insert_id.
    + assert (Hdb1 : h1 !! parameters fb = Some (ODict db)).
      { unfold h1, h0. rewrite !list_lookup_insert_ne; [done..|].
        intros E. rewrite E in Ha. congruence. }
      erewrite (run_update_features h1 a b _ fb _ db); [|done..].
      f_equal. cbn [parameters merge_features].
      rewrite merge_features_twice, (dict_update_twice da db Hwf).
      by rewrite (list_insert_id h1 (parameters fa)), list_insert_id.
Qed.

(** X2. Merging a Feature Point into itself changes nothing. *)
Theorem update_features_self (h : heap) (a : loc) (fa : ObservationFeatures)
    (da : dict) :
  h !! a = Some (OFeatures fa) →
  h !! parameters fa = Some (ODict da) →
  dict_wf da →
  update_features a a h = (h, inr a).
Proof.
  intros Ha Hda Hwf. erewrite run_update_features by done.
  rewrite merge_features_self, (dict_update_self da Hwf).
  assert (a ≠ parameters fa) by (intros E; rewrite <-E in Hda; congruence).
  by rewrite (list_insert_id h (parameters fa)), list_insert_id.
Qed.

(** X3. Chaining two merges on the returned reference: after
    [A.update_features(B).update_features(C)], where C is another object
    than A with another mapping, a key of C has C's value, any other key of
    B has B's value, and the remaining keys keep A's; each context field is
    C's when set, else B's when set, else A's.  The result is A itself. *)
Theorem update_features_chain (h : heap) (a b c : loc)
    (fa fb fc : ObservationFeatures) (da db dc : dict) :
  h !! a = Some (OFeatures fa) →
  h !! b = Some (OFeatures fb) →
  h !! c = Some (OFeatures fc) →
  h !! parameters fa = Some (ODict da) →
  h !! parameters fb = Some (ODict db) →
  h !! parameters fc = Some (ODict dc) →
  dict_wf db → dict_wf dc →
  c ≠ a → parameters fc ≠ parameters fa →
  ∃ h2 fa2 d2,
    (x ← update_features a b; update_features x c) h = (h2, inr a)
    ∧ h2 !! a = Some (OFeatures fa2)
    ∧ parameters fa2 = parameters fa
    ∧ h2 !! parameters fa = Some (ODict d2)
    ∧ (∀ k, dict_get d2 k =
              match dict_get dc k with
              | Some v => Some v
              | None => match dict_get db k with
                        | Some v => Some v
                        | None => dict_get da k
                        end
              end)
    ∧ trial_index fa2 = merged (trial_index fc) (merged (trial_index fb) (trial_index fa))
    ∧ start_time fa2 = merged (start_time fc) (merged (start_time fb) (start_time fa))
    ∧ end_time fa2 = merged (end_time fc) (merged (end_time fb) (end_time fa))
    ∧ random_split fa2
      = merged (random_split fc) (merged (random_split fb) (random_split fa)).
Proof.
  intros Ha Hb Hc Hda Hdb Hdc Hwfb Hwfc Hca Hpp.
  assert (Hap : a ≠ parameters fa) by (intros E; rewrite <-E in Hda; congruence).
  assert (Hcp : c ≠ parameters fa) by (intros E; rewrite <-E in Hda; congruence).
  assert (Hpa : parameters fc ≠ a) by (intros E; rewrite E in Hdc; congruence).
  set (h1 := <[a := OFeatures (merge_features fb fa)]>
               (<[parameters fa := ODict (dict_update da db)]> h)).
  assert (Ha1 : h1 !! a = Some (OFeatures (merge_features fb fa))).
  { apply lookup_store_eq with (OFeatures fa). by rewrite list_lookup_insert_ne. }
  assert (Hc1 : h1 !! c = Some (OFeatures fc)).
  { unfold h1. by rewrite !list_lookup_insert_ne. }
  assert (Hda1 : h1 !! parameters fa = Some (ODict (dict_update da db))).
  { unfold h1. rewrite list_lookup_insert_ne by done. by eapply lookup_store_eq. }
  assert (Hdc1 : h1 !! parameters fc = Some (ODict dc)).
  { unfold h1. by rewrite !list_lookup_insert_ne. }
  eexists _, (merge_features fc (merge_features fb fa)),
    (dict_update (dict_update da db) dc).
  split.
  { erewrite bind_ok by by apply run_update_features.
    by apply (run_update_features h1 a c (merge_features fb fa) fc
                (dict_update da db) dc). }
  cbn [parameters merge_features].
  split_and!; try done.
  - apply lookup_store_eq with (OFeatures (merge_features fb fa)).
    by rewrite list_lookup_insert_ne.
  - rewrite list_lookup_insert_ne by done. by eapply lookup_store_eq.
  - intros k. by rewrite !dict_get_update.
Qed.

(** ** __hash__: numpy scalars *)

(** X5. [__hash__] returns for every Feature Point, also one whose
    parameters hold [np.int64] or [np.float32] values, which [json.dumps]
    alone would refuse; and it leaves the Feature Point's mapping, numpy
    values included, as it is. *)
Theorem hash_never_raises `{Builtins} (h : heap) (a : loc)
    (fa : ObservationFeatures) (da : dict) :
  h !! a = Some (OFeatures fa) →
  h !! parameters fa = Some (ODict da) →
  dict_wf da →
  ∃ s, json_dumps_sorted (prod_map id coerce <$> da) = Some s
       ∧ Features_hash a h
         = (h, inr (py_hash (s, trial_index fa, start_time fa, end_time fa,
                             random_split fa))).
Proof.
  intros Ha Hda Hwf.
  destruct (json_dumps_sorted_coerced da Hwf) as [s Hs].
  exists s. split; [by rewrite <-coerce_items_fmap|].
  unfold Features_hash. do 2 step. by rewrite Hs.
Qed.

(** X6. The hash does not tell a numpy scalar from the plain number: two
    Feature Points whose mappings agree once every [np.int64] is read as an
    [int] and every [np.float32] as a [float], and whose context fields
    agree, have the same hash. *)
Theorem hash_ignores_numpy_types `{Builtins} (h : heap) (a b : loc)
    (fa fb : ObservationFeatures) (da db : dict) :
  h !! a = Some (OFeatures fa) →
  h !! b = Some (OFeatures fb) →
  h !! parameters fa = Some (ODict da) →
  h !! parameters fb = Some (ODict db) →
  dict_wf da → dict_wf db →
  prod_map id coerce <$> da ≡ₚ prod_map id coerce <$> db →
  trial_index fa = trial_index fb →
  start_time fa = start_time fb →
  end_time fa = end_time fb →
  random_split fa = random_split fb →
  ∃ z, Features_hash a h = (h, inr z) ∧ Features_hash b h = (h, inr z).
Proof.
  intros Ha Hb Hda Hdb Hwfa Hwfb Hperm Hti Hst Het Hrs.
  destruct (json_dumps_sorted_coerced da Hwfa) as [s Hsa].
  assert (Hsb : json_dumps_sorted (coerce_items db) = Some s).
  { rewrite <-Hsa, !coerce_items_fmap by done. unfold json_dumps_sorted.
    rewrite (merge_sort_insertion_order (prod_map id coerce <$> db)
               (prod_map id coerce <$> da)); [done| |done].
    unfold dict_wf. by rewrite coerce_fmap_keys. }
  eexists. split.
  - unfold Features_hash. do 2 step. by rewrite Hsa.
  - unfold Features_hash. do 2 step. by rewrite Hsb, Hti, Hst, Het, Hrs.
Qed.

(** ** observations_from_data: context fields, failures, rows *)

(** X7. Whenever [observations_from_data] returns, the Feature Point of each
    group carries the group's cells of the context columns: a field is the
    cell of every row of the group when the table has the column, and unset
    when it has not. *)
Theorem observations_carry_context `{JsonDecoder} `{GroupOrder}
    (experiment : Experiment) (data_ : Data) (h : heap) :
  let t := df data_ in
  registry_in h experiment →
  ∀ h' obs,
    observations_from_data experiment data_ h = (h', inr obs) →
    Forall2 (λ g o,
      ∃ f, h' !! features o = Some (OFeatures f)
           ∧ ∀ r, r ∈ group_rows t g →
               trial_index f
               = (if has_trial_index (columns t) then Some (col_trial_index r) else None)
               ∧ start_time f
                 = (if has_start_time (columns t) then Some (col_start_time r) else None)
               ∧ end_time f
                 = (if has_end_time (columns t) then Some (col_end_time r) else None)
               ∧ random_split f
                 = (if has_random_split (columns t) then Some (col_random_split r)
                    else None))
      (group_keys t) obs.
Proof.
  intros t Hreg h' obs Hret.
  destruct (observations_from_data_inr experiment data_ h h' obs Hreg Hret)
    as (-> & Hext & Hlen & Hobj). fold t in Hlen, Hobj |- *.
  apply Forall2_same_length_lookup_2; [by rewrite length_imap|].
  intros i g o Hg. rewrite list_lookup_imap, Hg. intros [= <-].
  destruct (Hobj i g Hg) as (arm & base & _ & _ & _ & Hf & _).
  eexists. split; [exact Hf|].
  intros r [_ <-]%elem_of_group_rows. done.
Qed.

(** A [KeyError] of the loop body is the failed lookup of the group's arm. *)
Lemma convert_group_key_error `{JsonDecoder} (experiment : Experiment) (h0 h h' : heap)
    (g : GroupKey) (d : list Row) (name : string) :
  registry_in h0 experiment →
  h0 `prefix_of` h →
  convert_group experiment g d h = (h', inl (KeyError name)) →
  name = g_arm_name g ∧ arms_by_name experiment !! g_arm_name g = None.
Proof.
  intros Hreg Hpre.
  destruct (arms_by_name experiment !! g_arm_name g) as [arm|] eqn:Harm.
  2:{ rewrite convert_group_unknown_arm by done. by intros [= _ <-]. }
  destruct (Hreg _ _ Harm) as [base Hbase].
  pose proof (prefix_lookup_Some _ _ _ _ Hbase Hpre) as Hbase'.
  destruct (g_fidelities g) as [s|] eqn:Hs.
  - destruct (json_loads s) as [[fd|]|] eqn:Hj.
    + destruct base as [|kv base].
      * erewrite convert_group_empty_arm; [|done..|rewrite Hs; by eexists]. done.
      * erewrite run_convert_group; [done|done..|rewrite Hs; by eexists].
    + unfold convert_group. rewrite Harm, Hs, Hj. step.
      erewrite bind_ok by (apply run_load_dict; by apply list_lookup_middle).
      erewrite bind_err by reflexivity. done.
    + unfold convert_group. rewrite Harm, Hs, Hj. step.
      erewrite bind_ok by (apply run_load_dict; by apply list_lookup_middle).
      erewrite bind_err by reflexivity. done.
  - destruct base as [|kv base].
    + erewrite convert_group_empty_arm; [|done..|by rewrite Hs]. done.
    + erewrite run_convert_group; [done|done..|by rewrite Hs].
Qed.

Lemma convert_groups_key_error_inv `{JsonDecoder} (experiment : Experiment) (h0 : heap)
    (groups : list (GroupKey * list Row)) (acc : list Observation) (h h' : heap)
    (name : string) :
  registry_in h0 experiment →
  h0 `prefix_of` h →
  convert_groups experiment groups acc h = (h', inl (KeyError name)) →
  arms_by_name experiment !! name = None
  ∧ Exists (λ gd : GroupKey * list Row, g_arm_name gd.1 = name) groups.
Proof.
  intros Hreg. revert acc h.
  induction groups as [|[g d] groups IH]; intros acc h Hpre Hrun; [done|].
  cbn [convert_groups] in Hrun. unfold mbind, M_bind in Hrun.
  pose proof (convert_group_extends experiment h g d) as Hext.
  destruct (convert_group experiment g d h) as [h1 [e1|o]] eqn:Hg.
  - injection Hrun as <- ->.
    destruct (convert_group_key_error experiment h0 h h1 g d name Hreg Hpre Hg)
      as [-> Hnone].
    split; [done | by left].
  - destruct (IH (acc ++ [o]) h1) as [Hnone Hex]; [by etrans | exact Hrun |].
    split; [done | by right].
Qed.

(** X8. A [KeyError] of [observations_from_data] is the failed lookup of
    line 211 and nothing else: its key is an arm name that a row of the
    table has and the registry lacks. *)
Theorem key_error_names_unregistered_arm `{JsonDecoder} `{GroupOrder}
    (experiment : Experiment) (data_ : Data) (h h' : heap) (name : string) :
  registry_in h experiment →
  observations_from_data experiment data_ h = (h', inl (KeyError name)) →
  arms_by_name experiment !! name = None
  ∧ ∃ r, r ∈ rows (df data_) ∧ col_arm_name r = name.
Proof.
  intros Hreg Hrun. set (t := df data_).
  destruct (convert_groups_key_error_inv experiment h (groupby t) [] h h' name Hreg
              ltac:(done) Hrun) as [Hnone Hex].
  split; [done|].
  apply Exists_exists in Hex as ([g d] & Hgd & Hname). simpl in Hname.
  apply (list_elem_of_fmap_2 fst) in Hgd. rewrite groupby_keys in Hgd.
  apply elem_of_group_keys in Hgd as (r & Hr & Hkey). simpl in Hkey. subst g.
  by exists r.
Qed.


Lemma sum_list_fmap_add {A} (f g : A → nat) (l : list A) :
  sum_list ((λ x, f x + g x)%nat <$> l) = (sum_list (f <$> l) + sum_list (g <$> l))%nat.
Proof. induction l as [|x l IH]; csimpl; [done | lia]. Qed.

Lemma sum_list_indicator `{EqDecision A} (x : A) (l : list A) :
  NoDup l →
  sum_list ((λ y, if decide (x = y) then 1 else 0)%nat <$> l)
  = (if decide (x ∈ l) then 1 else 0)%nat.
Proof.
  induction 1 as [|y l Hy _ IH]; csimpl; [done|].
  rewrite IH. destruct (decide (x = y)) as [<-|Hne].
  - rewrite (decide_True (P := x ∈ x :: l)) by left.
    by rewrite (decide_False (P := x ∈ l)).
  - destruct (decide (x ∈ l)) as [Hin|Hin].
    + rewrite (decide_True (P := x ∈ y :: l)); [done | by right].
    + rewrite (decide_False (P := x ∈ y :: l)); [done|].
      rewrite not_elem_of_cons. done.
Qed.

(** The sizes of the groups add up to the number of rows. *)
Lemma filter_key_sum {A} `{EqDecision K} (key : A → K) (rs : list A) (ks : list K) :
  NoDup ks →
  (∀ r, r ∈ rs → key r ∈ ks) →
  sum_list ((λ g, length (filter (λ r, key r = g) rs)) <$> ks) = length rs.
Proof.
  intros Hks. induction rs as [|r rs IH]; intros Hall.
  - clear. induction ks as [|k ks IHk]; [done|].
    rewrite fmap_cons. cbn [sum_list]. rewrite IHk. by rewrite filter_nil.
  - rewrite (list_fmap_ext _
      (λ g, (if decide (key r = g) then 1 else 0)
            + length (filter (λ r, key r = g) rs))%nat ks).
    2:{ intros i g _. rewrite filter_cons. by destruct (decide (key r = g)). }
    rewrite sum_list_fmap_add, sum_list_indicator by done.
    rewrite (decide_True (P := key r ∈ ks)) by (apply Hall; left).
    rewrite IH; [done|]. intros r' Hr'. apply Hall. by right.
Qed.

Lemma group_rows_sum `{GroupOrder} (t : DataFrame) :
  sum_list ((λ g, length (group_rows t g)) <$> group_keys t) = length (rows t).
Proof.
  apply (filter_key_sum (row_key (columns t))); [apply NoDup_group_keys|].
  intros r Hr. apply elem_of_group_keys. eauto.
Qed.

Lemma length_dropna (c : Columns) (raw : list RawRow) :
  length (dropna c raw) = length (filter (λ r, is_Some (kept c r)) raw).
Proof.
  unfold dropna. induction raw as [|r raw IH]; [done|].
  rewrite filter_cons. cbn [omap list_omap].
  destruct (kept c r) as [row|] eqn:Hr.
  - rewrite decide_True by by eexists. simpl. by rewrite IH.
  - rewrite decide_False by by intros [? ?]. exact IH.
Qed.

(** X10. No row is counted twice, no Observation is empty, and the rows
    that are lost are those that [groupby] leaves out: whenever
    [observations_from_data] returns, every Observation has at least one
    metric, and the numbers of metrics of the Observations add up to the
    number of rows of [data.df] in whose key no cell is missing; a row with
    a missing key cell is in no Observation. *)
Theorem observations_cover_rows `{JsonDecoder} `{GroupOrder}
    (experiment : Experiment) (c : Columns) (raw : list RawRow) (h : heap) :
  registry_in h experiment →
  ∀ h' obs,
    observations_from_data experiment (grouped_table c raw) h = (h', inr obs) →
    ∃ dts,
      Forall2 (λ o dt, h' !! data o = Some (OData dt)) obs dts
      ∧ Forall (λ dt, metric_names dt ≠ []) dts
      ∧ sum_list ((λ dt, length (metric_names dt)) <$> dts)
        = length (filter (λ r, is_Some (kept c r)) raw)
      ∧ (sum_list ((λ dt, length (metric_names dt)) <$> dts) ≤ length raw)%nat.
Proof.
  intros Hreg h' obs Hret. set (t := df (grouped_table c raw)).
  destruct (observations_from_data_inr experiment _ h h' obs Hreg Hret)
    as (-> & Hext & Hlen & Hobj). fold t in Hlen, Hobj |- *.
  assert (Hsum : sum_list ((λ dt, length (metric_names dt))
                   <$> ((λ g, group_data (group_rows t g)) <$> group_keys t))
                 = length (filter (λ r, is_Some (kept c r)) raw)).
  { rewrite <-length_dropna, <-list_fmap_compose.
    change (dropna c raw) with (rows t). rewrite <-(group_rows_sum t).
    f_equal. apply list_fmap_ext. intros i g _. simpl. by rewrite length_fmap. }
  exists ((λ g, group_data (group_rows t g)) <$> group_keys t). split_and!.
  - apply Forall2_same_length_lookup_2; [by rewrite length_imap, length_fmap|].
    intros i o dt (g & Hg & ->)%list_lookup_imap_Some. cbv beta.
    rewrite list_lookup_fmap, Hg. intros [= <-].
    by destruct (Hobj i g Hg) as (_ & _ & _ & _ & _ & _ & Hdt).
  - apply Forall_fmap, Forall_forall. intros g (r & Hr & Hkey)%elem_of_group_keys.
    simpl. intros Hnil%fmap_nil_inv.
    assert (r ∈ group_rows t g) as Hin by by apply elem_of_group_rows.
    rewrite Hnil in Hin. by apply elem_of_nil in Hin.
  - exact Hsum.
  - rewrite Hsum. apply length_filter.
Qed.

(** What the call has built is an Observation with all three objects. *)
Lemma observations_from_data_in `{JsonDecoder} `{GroupOrder}
    (experiment : Experiment) (data_ : Data) (h h' : heap) (obs : list Observation) :
  registry_in h experiment →
  observations_from_data experiment data_ h = (h', inr obs) →
  Forall (observation_in h') obs.
Proof.
  intros Hreg Hret.
  destruct (observations_from_data_inr experiment data_ h h' obs Hreg Hret)
    as (-> & Hext & Hlen & Hobj).
  apply Forall_forall. intros o (i & g & -> & Hg)%elem_of_lookup_imap.
  destruct (Hobj i g Hg) as (arm & base & _ & _ & Hp & Hf & Hdt).
  by eexists _, _, _.
Qed.

(** X11. The two functions compose: every list that
    [observations_from_data] returns can be split by
    [separate_observations] with the copy flag, which returns one features
    copy and one data copy per Observation and leaves the converted objects
    in place. *)
Theorem observations_can_be_split `{JsonDecoder} `{GroupOrder}
    (experiment : Experiment) (data_ : Data) (h : heap) :
  registry_in h experiment →
  ∀ h' obs,
    observations_from_data experiment data_ h = (h', inr obs) →
    ∃ h'' fs ds,
      separate_observations obs true h' = (h'', inr (fs, ds))
      ∧ length fs = length obs ∧ length ds = length obs
      ∧ h' `prefix_of` h''.
Proof.
  intros Hreg h' obs Hret.
  pose proof (observations_from_data_in experiment data_ h h' obs Hreg Hret) as Hin.
  destruct (run_copy_all_features h' obs h') as (h1 & Hrun1 & Hext1 & _); [done..|].
  destruct (run_copy_all_data h' obs h1) as (h2 & Hrun2 & Hext2 & _); [done..|].
  eexists h2, _, _. split.
  { unfold separate_observations. step with Hrun1. by step with Hrun2. }
  split; [by rewrite length_imap|]. split; [by rewrite length_imap|]. by etrans.
Qed.

(** X12. The conversion can be repeated: after a call that returned, the
    same call on the store it left returns again, with as many Observations,
    the i-th with the arm name, context fields, parameters and data of the
    i-th Observation of the first call.  Every object of the second call is
    new: no Feature Point, mapping or data object of any Observation of the
    second call is one of any Observation of the first. *)
Theorem observations_from_data_repeatable `{JsonDecoder} `{GroupOrder}
    (experiment : Experiment) (data_ : Data) (h : heap) :
  registry_in h experiment →
  ∀ h1 obs1,
    observations_from_data experiment data_ h = (h1, inr obs1) →
    ∃ h2 obs2,
      observations_from_data experiment data_ h1 = (h2, inr obs2)
      ∧ h1 `prefix_of` h2
      ∧ Forall2 (λ o1 o2,
          arm_name o1 = arm_name o2
          ∧ ∃ f1 f2 p dt,
              h2 !! features o1 = Some (OFeatures f1)
              ∧ h2 !! features o2 = Some (OFeatures f2)
              ∧ trial_index f1 = trial_index f2 ∧ start_time f1 = start_time f2
              ∧ end_time f1 = end_time f2 ∧ random_split f1 = random_split f2
              ∧ h2 !! parameters f1 = Some (ODict p)
              ∧ h2 !! parameters f2 = Some (ODict p)
              ∧ h2 !! data o1 = Some (OData dt)
              ∧ h2 !! data o2 = Some (OData dt))
          obs1 obs2
      ∧ (∀ i j o1 o2 f1 f2,
           obs1 !! i = Some o1 → obs2 !! j = Some o2 →
           h2 !! features o1 = Some (OFeatures f1) →
           h2 !! features o2 = Some (OFeatures f2) →
           features o1 ≠ features o2 ∧ data o1 ≠ data o2
           ∧ parameters f1 ≠ parameters f2)
      ∧ (∀ j o2 f2,
           obs2 !! j = Some o2 → h2 !! features o2 = Some (OFeatures f2) →
           h1 !! features o2 = None ∧ h1 !! data o2 = None
           ∧ h1 !! parameters f2 = None).
Proof.
  intros Hreg h1 obs1 Hret1. set (t := df data_).
  destruct (observations_from_data_inr experiment data_ h h1 obs1 Hreg Hret1)
    as (-> & Hext1 & Hlen1 & Hobj1). fold t in Hlen1, Hobj1 |- *.
  assert (Hreg1 : registry_in h1 experiment).
  { intros name arm Harm. destruct (Hreg name arm Harm) as [base Hbase].
    exists base. by eapply prefix_lookup_Some. }
  assert (Hrows1 : ∀ r, r ∈ rows t → convertible experiment h1 (row_key (columns t) r)).
  { intros r Hr.
    destruct (proj1 (observations_from_data_returns experiment data_ h Hreg)
                ltac:(by eexists _, _) r Hr) as ((arm & base & ? & ? & ?) & ?).
    split; [|done]. exists arm, base. split_and!; [done| |done].
    by eapply prefix_lookup_Some. }
  destruct (run_observations_from_data experiment data_ h1 Hrows1)
    as (h2 & Hrun2 & Hext2 & Hlen2 & Hobj2). fold t in Hrun2, Hlen2, Hobj2.
  eexists h2, _. split; [exact Hrun2|]. split; [done|].
  assert (Hsecond : ∀ j o2 f2,
            imap (λ i g, group_observation (length h1 + 3 * i) g) (group_keys t) !! j
            = Some o2 →
            h2 !! features o2 = Some (OFeatures f2) →
            features o2 = S (length h1 + 3 * j)
            ∧ data o2 = S (S (length h1 + 3 * j))
            ∧ parameters f2 = (length h1 + 3 * j)%nat).
  { intros j o2 f2 (g & Hg & Ho2)%list_lookup_imap_Some Hf2. cbv beta in Ho2. subst o2.
    destruct (Hobj2 j g Hg) as (_ & _ & _ & _ & _ & Hf & _).
    cbn [features data group_observation] in Hf2 |- *.
    assert (Some (OFeatures f2) = Some (OFeatures (group_features (length h1 + 3 * j) g)))
      as Ef by exact (eq_trans (eq_sym Hf2) Hf).
    injection Ef as ->. done. }
  assert (Hfirst : ∀ i o1 f1,
            imap (λ i g, group_observation (length h + 3 * i) g) (group_keys t) !! i
            = Some o1 →
            h2 !! features o1 = Some (OFeatures f1) →
            (features o1 < length h1 ∧ data o1 < length h1
             ∧ parameters f1 < length h1)%nat).
  { intros i o1 f1 (g & Hg & Ho1)%list_lookup_imap_Some Hf1. cbv beta in Ho1. subst o1.
    destruct (Hobj1 i g Hg) as (_ & _ & _ & _ & _ & Hf & Hd).
    pose proof (lookup_lt_Some _ _ _ Hd) as Hlt.
    pose proof (prefix_lookup_Some _ _ _ _ Hf Hext2) as Hf'.
    cbn [features data group_observation] in Hf1, Hlt |- *.
    assert (Some (OFeatures f1) = Some (OFeatures (group_features (length h + 3 * i) g)))
      as Ef by exact (eq_trans (eq_sym Hf1) Hf').
    injection Ef as ->. cbn [parameters group_features]. lia. }
  split_and!.
  - apply Forall2_same_length_lookup_2; [by rewrite !length_imap|].
    intros i o1 o2 (g & Hg & ->)%list_lookup_imap_Some
      (g' & Hg' & ->)%list_lookup_imap_Some.
    assert (g' = g) as -> by congruence. cbv beta.
    destruct (Hobj1 i g Hg) as (arm & base & Harm & Hbase & Hp1 & Hf1 & Hd1).
    destruct (Hobj2 i g Hg) as (arm' & base' & Harm' & Hbase' & Hp2 & Hf2 & Hd2).
    assert (arm' = arm) as -> by congruence.
    assert (base' = base) as ->.
    { pose proof (prefix_lookup_Some _ _ _ _ Hbase Hext1). congruence. }
    split; [done|].
    eexists _, _, _, _. split; [by eapply prefix_lookup_Some|].
    split; [exact Hf2|].
    do 4 (split; [done|]).
    split; [by eapply prefix_lookup_Some|]. split; [exact Hp2|].
    split; [by eapply prefix_lookup_Some | exact Hd2].
  - intros i j o1 o2 f1 f2 Ho1 Ho2 Hf1 Hf2.
    destruct (Hfirst i o1 f1 Ho1 Hf1) as (? & ? & ?).
    destruct (Hsecond j o2 f2 Ho2 Hf2) as (? & ? & ?). lia.
  - intros j o2 f2 Ho2 Hf2.
    destruct (Hsecond j o2 f2 Ho2 Hf2) as (-> & -> & ->).
    split_and!; apply lookup_ge_None_2; lia.
Qed.

(** ** separate_observations: the copies *)

Lemma run_separate_copy (observations : list Observation) (h : heap) :
  Forall (observation_in h) observations →
  ∃ h1 h2,
    separate_observations observations true h
    = (h2, inr (imap (λ i _, S (length h + 2 * i)) observations,
                imap (λ i _, (length h1 + i)%nat) observations))
    ∧ h `prefix_of` h1 ∧ h1 `prefix_of` h2
    ∧ length h1 = (length h + 2 * length observations)%nat
    ∧ ∀ i o f d, observations !! i = Some o →
        h !! features o = Some (OFeatures f) →
        h !! parameters f = Some (ODict d) →
        h2 !! (length h + 2 * i)%nat = Some (ODict d)
        ∧ h2 !! S (length h + 2 * i)
          = Some (OFeatures (set_parameters (length h + 2 * i) f)).
Proof.
  intros Hin.
  destruct (run_copy_all_features h observations h) as (h1 & Hrun1 & Hext1 & Hlen1 & Hobj1);
    [done..|].
  destruct (run_copy_all_data h observations h1) as (h2 & Hrun2 & Hext2 & _);
    [done..|].
  exists h1, h2. split.
  { unfold separate_observations. step with Hrun1. by step with Hrun2. }
  split_and!; [done..|].
  intros i o f d Hi Hf Hd. destruct (Hobj1 i o f d Hi Hf Hd) as [Hd' Hf'].
  split; by eapply prefix_lookup_Some.
Qed.

(** X13. With the copy flag every element of the input gets a copy of its
    own: the returned features references are pairwise distinct, so are the
    data references, and so are the mappings of the returned Feature Points,
    also when the input holds one Observation twice or two Observations
    share their objects. *)
Theorem separate_copies_are_distinct (observations : list Observation) (h : heap) :
  Forall (observation_in h) observations →
  ∀ h' fs ds,
    separate_observations observations true h = (h', inr (fs, ds)) →
    NoDup fs ∧ NoDup ds
    ∧ ∀ i j fi fj f g, i ≠ j →
        fs !! i = Some fi → fs !! j = Some fj →
        h' !! fi = Some (OFeatures f) → h' !! fj = Some (OFeatures g) →
        parameters f ≠ parameters g.
Proof.
  intros Hin h' fs ds Hrun.
  destruct (run_separate_copy observations h Hin)
    as (h1 & h2 & Hrun' & Hext1 & Hext2 & Hlen1 & Hobj).
  rewrite Hrun' in Hrun. injection Hrun as <- <- <-.
  split_and!.
  - apply NoDup_alt. intros i j x (? & _ & ->)%list_lookup_imap_Some
      (? & _ & E)%list_lookup_imap_Some. lia.
  - apply NoDup_alt. intros i j x (? & _ & ->)%list_lookup_imap_Some
      (? & _ & E)%list_lookup_imap_Some. lia.
  - intros i j fi fj f g Hij (oi & Hoi & ->)%list_lookup_imap_Some
      (oj & Hoj & ->)%list_lookup_imap_Some Hfi Hfj.
    rewrite Forall_forall in Hin.
    destruct (Hin oi) as (f0 & d0 & _ & Hf0 & Hd0 & _);
      [by eapply list_elem_of_lookup_2|].
    destruct (Hin oj) as (g0 & e0 & _ & Hg0 & He0 & _);
      [by eapply list_elem_of_lookup_2|].
    destruct (Hobj i oi f0 d0 Hoi Hf0 Hd0) as [_ Hfi'].
    destruct (Hobj j oj g0 e0 Hoj Hg0 He0) as [_ Hfj'].
    assert (Some (OFeatures f) = Some (OFeatures (set_parameters (length h + 2 * i) f0)))
      as Ef by exact (eq_trans (eq_sym Hfi) Hfi').
    assert (Some (OFeatures g) = Some (OFeatures (set_parameters (length h + 2 * j) g0)))
      as Eg by exact (eq_trans (eq_sym Hfj) Hfj').
    injection Ef as ->. injection Eg as ->. cbn [parameters set_parameters]. lia.
Qed.

(** X14. A deep copy hashes like its original: after
    [separate_observations] with the copy flag, [__hash__] of each returned
    Feature Point is [__hash__] of the Feature Point it was copied from. *)
Theorem copy_hashes_like_original `{Builtins} (observations : list Observation)
    (h : heap) :
  store_wf h →
  Forall (observation_in h) observations →
  ∀ h' fs ds,
    separate_observations observations true h = (h', inr (fs, ds)) →
    Forall2 (λ o fl,
      ∃ z, Features_hash (features o) h' = (h', inr z)
           ∧ Features_hash fl h' = (h', inr z))
      observations fs.
Proof.
  intros Hwf Hin h' fs ds Hrun.
  destruct (run_separate_copy observations h Hin)
    as (h1 & h2 & Hrun' & Hext1 & Hext2 & Hlen1 & Hobj).
  rewrite Hrun' in Hrun. injection Hrun as <- <- <-.
  assert (Hext : h `prefix_of` h2) by by etrans.
  apply Forall2_same_length_lookup_2; [by rewrite length_imap|].
  intros i o fl Ho (o' & Ho' & ->)%list_lookup_imap_Some.
  rewrite Forall_forall in Hin.
  destruct (Hin o) as (f & d & _ & Hf & Hd & _); [by eapply list_elem_of_lookup_2|].
  destruct (Hobj i o f d Ho Hf Hd) as [Hd' Hf'].
  destruct (json_dumps_sorted_coerced d (Hwf _ _ Hd)) as [s Hs].
  eexists. split.
  - unfold Features_hash.
    erewrite bind_ok by (apply run_load_features; by eapply prefix_lookup_Some).
    erewrite bind_ok by (apply run_load_dict; by eapply prefix_lookup_Some).
    by rewrite Hs.
  - unfold Features_hash. do 2 step. by rewrite Hs.
Qed.

(** ** observations_from_data: what the result does not depend on *)

Lemma convert_groups_arms `{JsonDecoder} (e1 e2 : Experiment)
    (groups : list (GroupKey * list Row)) (acc : list Observation) (h : heap) :
  Forall (λ gd : GroupKey * list Row,
            arms_by_name e1 !! g_arm_name gd.1 = arms_by_name e2 !! g_arm_name gd.1)
         groups →
  convert_groups e1 groups acc h = convert_groups e2 groups acc h.
Proof.
  intros Hall. revert acc h.
  induction Hall as [|[g d] groups Hg _ IH]; intros acc h; simpl; [done|].
  unfold mbind, M_bind.
  assert (convert_group e1 g d h = convert_group e2 g d h) as ->.
  { unfold convert_group. simpl in Hg. by rewrite Hg. }
  destruct (convert_group e2 g d h) as [h1 [e|o]]; [done|]. apply IH.
Qed.

(** X15. The conversion looks up the arms that the table names and no
    others: two registries that agree on the arm names of the rows give the
    same result, be it a list or an exception, and the same store.  So
    registering further arms, or dropping arms the table does not name,
    changes nothing. *)
Theorem observations_from_data_reads_named_arms `{JsonDecoder} `{GroupOrder}
    (e1 e2 : Experiment) (data_ : Data) (h : heap) :
  (∀ r, r ∈ rows (df data_) →
     arms_by_name e1 !! col_arm_name r = arms_by_name e2 !! col_arm_name r) →
  observations_from_data e1 data_ h = observations_from_data e2 data_ h.
Proof.
  intros Hrows. unfold observations_from_data. apply convert_groups_arms.
  apply (convertible_group_keys e1 h (df data_)
           (λ g, arms_by_name e1 !! g_arm_name g = arms_by_name e2 !! g_arm_name g)).
  intros r Hr. simpl. by apply Hrows.
Qed.

(** ** The further properties at the inputs *)

(** X1 at [merge_store]: B merged into A twice. *)
Lemma update_features_idempotent_witness :
  dict_wf [("y", VInt 7); ("z", VInt 9)]
  ∧ ∃ h1, update_features 2%nat 3%nat merge_store = (h1, inr 2%nat)
          ∧ update_features 2%nat 3%nat h1 = (h1, inr 2%nat).
Proof.
  assert (Hwf : dict_wf [("y", VInt 7); ("z", VInt 9)]) by by apply dict_wf_check.
  split; [exact Hwf|].
  exact (update_features_idempotent merge_store 2%nat 3%nat _ _ _ _
           eq_refl eq_refl eq_refl eq_refl Hwf).
Defined.

(** X2 at [merge_store]: A merged into itself. *)
Lemma update_features_self_witness :
  dict_wf [("x", VInt 1); ("y", VInt 2)]
  ∧ update_features 2%nat 2%nat merge_store = (merge_store, inr 2%nat).
Proof.
  assert (Hwf : dict_wf [("x", VInt 1); ("y", VInt 2)]) by by apply dict_wf_check.
  split; [exact Hwf|].
  exact (update_features_self merge_store 2%nat _ _ eq_refl eq_refl Hwf).
Defined.

(** X3 at [chain_store]: [z] is C's, [y] is B's, [x] is A's; the trial index
    is B's and the end time is C's. *)
Lemma update_features_chain_witness :
  (dict_wf [("y", VInt 7); ("z", VInt 9)] ∧ dict_wf [("z", VInt 0); ("w", VInt 3)])
  ∧ ∃ h2 fa2 d2,
      (x ← update_features 2%nat 3%nat; update_features x 5%nat) chain_store
      = (h2, inr 2%nat)
      ∧ h2 !! 2%nat = Some (OFeatures fa2)
      ∧ h2 !! 0%nat = Some (ODict d2)
      ∧ dict_get d2 "z" = Some (VInt 0)
      ∧ dict_get d2 "y" = Some (VInt 7)
      ∧ dict_get d2 "x" = Some (VInt 1)
      ∧ trial_index fa2 = Some 4
      ∧ end_time fa2 = Some 20.
Proof.
  assert (Hb : dict_wf [("y", VInt 7); ("z", VInt 9)]) by by apply dict_wf_check.
  assert (Hc : dict_wf [("z", VInt 0); ("w", VInt 3)]) by by apply dict_wf_check.
  split; [by split|].
  destruct (update_features_chain chain_store 2%nat 3%nat 5%nat _ _ _ _ _ _
              eq_refl eq_refl eq_refl eq_refl eq_refl eq_refl Hb Hc
              ltac:(discriminate) ltac:(discriminate))
    as (h2 & fa2 & d2 & Hrun & Hfa2 & _ & Hd2 & Hget & Hti & _ & Het & _).
  exists h2, fa2, d2. split_and!; [exact Hrun | exact Hfa2 | exact Hd2 | | | | |].
  - by rewrite Hget.
  - by rewrite Hget.
  - by rewrite Hget.
  - by rewrite Hti.
  - by rewrite Het.
Defined.

(** X5 at [numpy_store]: the mapping with the [np.int64] is hashed, and is
    as it was. *)
Lemma hash_never_raises_witness :
  dict_wf [("n", VInt64 3); ("s", VStr "u")]
  ∧ ∃ z, @Features_hash sample_builtins 2%nat numpy_store = (numpy_store, inr z).
Proof.
  assert (Hwf : dict_wf [("n", VInt64 3); ("s", VStr "u")]) by by apply dict_wf_check.
  split; [exact Hwf|].
  destruct (@hash_never_raises sample_builtins numpy_store 2%nat _ _
              eq_refl eq_refl Hwf) as (s & _ & Hrun).
  eexists. exact Hrun.
Defined.

(** X6 at [numpy_store]: [np.int64(3)] and [3] hash alike. *)
Lemma hash_ignores_numpy_types_witness :
  (dict_wf [("n", VInt64 3); ("s", VStr "u")]
   ∧ dict_wf [("s", VStr "u"); ("n", VInt 3)])
  ∧ ∃ z, @Features_hash sample_builtins 2%nat numpy_store = (numpy_store, inr z)
         ∧ @Features_hash sample_builtins 3%nat numpy_store = (numpy_store, inr z).
Proof.
  assert (Ha : dict_wf [("n", VInt64 3); ("s", VStr "u")]) by by apply dict_wf_check.
  assert (Hb : dict_wf [("s", VStr "u"); ("n", VInt 3)]) by by apply dict_wf_check.
  split; [by split|].
  exact (@hash_ignores_numpy_types sample_builtins numpy_store 2%nat 3%nat _ _ _ _
           eq_refl eq_refl eq_refl eq_refl Ha Hb
           (perm_swap ("s", VStr "u") ("n", VInt 3) [])
           eq_refl eq_refl eq_refl eq_refl).
Defined.

(** X7 at [context_data]: the Feature Point has the trial index of the
    rows and no start time. *)
Lemma observations_carry_context_witness :
  registry_in example_store example_experiment
  ∧ ∃ h' o f,
      observations_from_data example_experiment context_data example_store
      = (h', inr [o])
      ∧ h' !! features o = Some (OFeatures f)
      ∧ trial_index f = Some 0 ∧ start_time f = None.
Proof.
  pose proof (example_registry_in [("x", VInt 1); ("y", VInt 2)]) as Hreg.
  split; [exact Hreg|].
  pose proof (observations_carry_context example_experiment context_data
                example_store Hreg _ _ eq_refl) as Hall.
  destruct (Forall2_lookup_r _ _ _ 0%nat _ Hall eq_refl)
    as (g & Hg & f & Hf & Hrows).
  injection Hg as <-.
  destruct (Hrows (example_row "arm1" "m1" 3%float 0.5%float ""))
    as (Hti & Hst & _).
  { apply elem_of_group_rows. split; [left | reflexivity]. }
  eexists _, _, f. split; [reflexivity|]. split; [exact Hf|]. by split.
Defined.

(** X8 at [ghost_data]: the [KeyError] names [ghost], which the second row
    has and the registry lacks. *)
Lemma key_error_names_unregistered_arm_witness :
  registry_in example_store example_experiment
  ∧ ∃ h',
      observations_from_data example_experiment ghost_data example_store
      = (h', inl (KeyError "ghost"))
      ∧ arms_by_name example_experiment !! "ghost" = None
      ∧ ∃ r, r ∈ rows (df ghost_data) ∧ col_arm_name r = "ghost".
Proof.
  pose proof (example_registry_in [("x", VInt 1); ("y", VInt 2)]) as Hreg.
  split; [exact Hreg|].
  eexists. split; [exact unknown_arm_example|].
  exact (key_error_names_unregistered_arm example_experiment ghost_data example_store
           _ "ghost" Hreg unknown_arm_example).
Defined.


(** X10 at [raw_rows]: two of the three rows have an arm name, and the
    metrics add up to two. *)
Lemma observations_cover_rows_witness :
  registry_in example_store example_experiment
  ∧ ∃ h' obs,
      observations_from_data example_experiment
        (grouped_table (example_columns false) raw_rows) example_store
      = (h', inr obs)
      ∧ ∃ dts,
          Forall2 (λ o dt, h' !! data o = Some (OData dt)) obs dts
          ∧ Forall (λ dt, metric_names dt ≠ []) dts
          ∧ sum_list ((λ dt, length (metric_names dt)) <$> dts) = 2%nat
          ∧ (sum_list ((λ dt, length (metric_names dt)) <$> dts) ≤ 3)%nat.
Proof.
  pose proof (example_registry_in [("x", VInt 1); ("y", VInt 2)]) as Hreg.
  split; [exact Hreg|].
  eexists _, _. split; [exact raw_rows_example|].
  exact (observations_cover_rows example_experiment (example_columns false) raw_rows
           example_store Hreg _ _ raw_rows_example).
Defined.

(** X11 at the end-to-end example *)
Lemma observations_can_be_split_witness :
  registry_in example_store example_experiment
  ∧ ∃ h' obs,
      observations_from_data example_experiment example_data example_store
      = (h', inr obs)
      ∧ ∃ h'' fs ds,
          separate_observations obs true h' = (h'', inr (fs, ds))
          ∧ length fs = length obs ∧ length ds = length obs
          ∧ h' `prefix_of` h''.
Proof.
  pose proof (example_registry_in [("x", VInt 1); ("y", VInt 2)]) as Hreg.
  split; [exact Hreg|].
  eexists _, _. split; [reflexivity|].
  exact (observations_can_be_split example_experiment example_data example_store
           Hreg _ _ eq_refl).
Defined.

(** X12 at the fidelity example: the second call returns one Observation
    again, whose objects the store did not hold before. *)
Lemma observations_from_data_repeatable_witness :
  registry_in fidelity_store example_experiment
  ∧ ∃ h1 obs1 h2 obs2,
      observations_from_data example_experiment fidelity_data fidelity_store
      = (h1, inr obs1)
      ∧ observations_from_data example_experiment fidelity_data h1 = (h2, inr obs2)
      ∧ h1 `prefix_of` h2
      ∧ length obs1 = length obs2
      ∧ ∀ j o2 f2,
          obs2 !! j = Some o2 → h2 !! features o2 = Some (OFeatures f2) →
          h1 !! features o2 = None ∧ h1 !! data o2 = None
          ∧ h1 !! parameters f2 = None.
Proof.
  pose proof (example_registry_in [("x", VInt 1)]) as Hreg.
  split; [exact Hreg|].
  destruct (observations_from_data_repeatable example_experiment fidelity_data
              fidelity_store Hreg _ _ fidelity_example)
    as (h2 & obs2 & Hrun & Hext & Hall & _ & Hnew).
  eexists _, _, h2, obs2. split; [exact fidelity_example|].
  split; [exact Hrun|]. split; [exact Hext|].
  split; [exact (Forall2_length _ _ _ Hall) | exact Hnew].
Defined.

(** X13 at [shared_input]: one Observation twice gives two copies. *)
Lemma separate_copies_are_distinct_witness :
  Forall (observation_in split_store) shared_input
  ∧ ∃ h' fs ds,
      separate_observations shared_input true split_store = (h', inr (fs, ds))
      ∧ length fs = 2%nat ∧ NoDup fs ∧ NoDup ds.
Proof.
  assert (Hin : Forall (observation_in split_store) shared_input).
  { apply Forall_cons. split; [by eexists _, _, _|].
    apply Forall_cons. split; [by eexists _, _, _ | by apply Forall_nil_2]. }
  split; [exact Hin|].
  destruct (separate_copies_are_distinct shared_input split_store Hin _ _ _ eq_refl)
    as (Hfs & Hds & _).
  eexists _, _, _. split; [reflexivity|]. split; [reflexivity|]. by split.
Defined.

(** X14 at [shared_input]: both copies hash like the original. *)
Lemma copy_hashes_like_original_witness :
  (store_wf split_store ∧ Forall (observation_in split_store) shared_input)
  ∧ ∃ h' fs ds,
      separate_observations shared_input true split_store = (h', inr (fs, ds))
      ∧ Forall2 (λ o fl,
          ∃ z, @Features_hash sample_builtins (features o) h' = (h', inr z)
               ∧ @Features_hash sample_builtins fl h' = (h', inr z))
          shared_input fs.
Proof.
  assert (Hwf : store_wf split_store).
  { intros [|[|[|l]]] d Hl; try discriminate.
    injection Hl as <-. by apply dict_wf_check. }
  assert (Hin : Forall (observation_in split_store) shared_input).
  { apply Forall_cons. split; [by eexists _, _, _|].
    apply Forall_cons. split; [by eexists _, _, _ | by apply Forall_nil_2]. }
  split; [by split|].
  eexists _, _, _. split; [reflexivity|].
  exact (@copy_hashes_like_original sample_builtins shared_input split_store
           Hwf Hin _ _ _ eq_refl).
Defined.

(** X15 at the end-to-end example: a registry that also holds an arm
    [arm2] gives the same Observation. *)
Lemma observations_from_data_reads_named_arms_witness :
  (∀ r, r ∈ rows (df example_data) →
     arms_by_name example_experiment !! col_arm_name r
     = arms_by_name larger_experiment !! col_arm_name r)
  ∧ observations_from_data example_experiment example_data example_store
    = observations_from_data larger_experiment example_data example_store.
Proof.
  assert (Hsame : ∀ r, r ∈ rows (df example_data) →
            arms_by_name example_experiment !! col_arm_name r
            = arms_by_name larger_experiment !! col_arm_name r).
  { intros r Hr. simpl in Hr.
    apply elem_of_cons in Hr as [->|Hr]; [reflexivity|].
    apply elem_of_cons in Hr as [->|Hr]; [reflexivity|].
    by apply elem_of_nil in Hr. }
  split; [exact Hsame|].
  exact (observations_from_data_reads_named_arms example_experiment larger_experiment
           example_data example_store Hsame).
Defined.
